(** * Smart Data Profiler (app.py): response parser, summary builder,
      analysis step and webhook notifier

    A shallow embedding of the functions of [app.py] and the properties the
    specification states about them.

    Python values are modelled as follows.
    - [str]: a sequence of Unicode code points ([list N]); string constants
      of the source are ASCII and written with [pystr].
    - exceptions: the type [exn]; a computation that may raise returns a
      [result].
    - [pandas.DataFrame]: an ordered list of named columns of cells.
    - float64: Rocq's primitive binary64 floats.
    - the remote services (text generation, HTTP), the clock, the markdown
      renderer and the Python interpreter behind [exec] are parameters of
      the sections that use them; what [requests.post] does before it
      connects and what [exec] does with a source that holds no statement
      are modelled in [requests_library] and [python_exec]. *)

From Equations Require Import Equations.
From Stdlib Require Import String Ascii List Bool Arith Lia NArith ZArith Uint63 Floats.
Import ListNotations.

Set Warnings "-inexact-float".
Local Open Scope list_scope.

(** ** Python strings *)

Definition char := N.
Definition str := list char.

(** An ASCII literal of the source as a [str]. *)
Definition pystr (s : string) : str := map N_of_ascii (list_ascii_of_string s).

(** ** Exceptions *)

(** [IndexError], [ValueError] and [KeyError] are what list indexing,
    [str.split] and a lookup by key raise; [Exception_] stands for any other exception derived from
    [Exception] (library, network or snippet failures) with its message;
    [StopException] is what [st.stop()] raises and [BaseException_] any
    other exception outside the [Exception] hierarchy: an
    [except Exception] clause does not catch these two. *)
Inductive exn :=
| IndexError
| ValueError
| KeyError (key : str)
| Exception_ (msg : str)
| StopException
| BaseException_ (msg : str).

(** [isinstance(e, Exception)]. *)
Definition is_Exception (e : exn) : bool :=
  match e with
  | IndexError | ValueError | KeyError _ | Exception_ _ => true
  | StopException | BaseException_ _ => false
  end.

(** [repr(s)] of a string, which is what [str(KeyError(s))] gives. The
    quote is the apostrophe, or the double quote when the string holds an
    apostrophe and no double quote; a backslash and the quote in use are
    escaped, tab, newline and return are written [\t], [\n], [\r], and the
    other code points below 256 that are not printable (the control
    characters, the no-break space and the soft hyphen) as [\x] and two
    hexadecimal digits. Code points from 256 up are written as they are,
    as Python writes the letters and symbols among them. *)
Definition hex_digit (d : N) : char :=
  if (d <? 10)%N then (48 + d)%N else (87 + d)%N.

Definition repr_quote (s : str) : char :=
  if existsb (N.eqb 39) s && negb (existsb (N.eqb 34) s) then 34%N else 39%N.

Definition repr_char (quote c : char) : str :=
  if (c =? quote)%N || (c =? 92)%N then [92%N; c]
  else if (c =? 9)%N then pystr "\t"
  else if (c =? 10)%N then pystr "\n"
  else if (c =? 13)%N then pystr "\r"
  else if (c <? 32)%N || ((127 <=? c)%N && (c <=? 160)%N) || (c =? 173)%N then
    pystr "\x" ++ [hex_digit (c / 16); hex_digit (c mod 16)]
  else [c].

Definition py_repr (s : str) : str :=
  let quote := repr_quote s in
  [quote] ++ flat_map (repr_char quote) s ++ [quote].

(** [str(e)], as an f-string formats it. *)
Definition exn_str (e : exn) : str :=
  match e with
  | IndexError => pystr "list index out of range"
  | ValueError => pystr "empty separator"
  | KeyError key => py_repr key
  | Exception_ msg => msg
  | StopException => []
  | BaseException_ msg => msg
  end.

Inductive result (A : Type) :=
| Ok (a : A)
| Raise (e : exn).
Arguments Ok {A} a.
Arguments Raise {A} e.

Definition rbind {A B} (r : result A) (k : A -> result B) : result B :=
  match r with
  | Ok a => k a
  | Raise e => Raise e
  end.

Declare Scope py_scope.
Delimit Scope py_scope with py.
Notation "x <- r ;; k" := (rbind r (fun x => k))
  (at level 61, r at next level, right associativity) : py_scope.

(** ** [str] methods used by the parser *)

(** [c.isspace()] for a single code point: CPython's
    [_PyUnicode_IsWhitespace]. *)
Definition isspace (c : char) : bool :=
  ((9 <=? c) && (c <=? 13) || (28 <=? c) && (c <=? 32)
   || (c =? 133) || (c =? 160) || (c =? 5760)
   || (8192 <=? c) && (c <=? 8202)
   || (c =? 8232) || (c =? 8233) || (c =? 8239) || (c =? 8287)
   || (c =? 12288))%N.

Fixpoint lstrip (s : str) : str :=
  match s with
  | c :: s' => if isspace c then lstrip s' else s
  | [] => []
  end.

Definition rstrip (s : str) : str := rev (lstrip (rev s)).

(** [s.strip()]: leading and trailing whitespace removed. *)
Definition strip (s : str) : str := rstrip (lstrip s).

(** [s.startswith(p)]. *)
Fixpoint startswith (p s : str) : bool :=
  match p, s with
  | [], _ => true
  | a :: p', b :: s' => N.eqb a b && startswith p' s'
  | _ :: _, [] => false
  end.

(** [s.find(sub)]: the lowest index at which [sub] occurs, [None] for
    Python's -1. *)
Fixpoint find (sub s : str) : option nat :=
  if startswith sub s then Some 0
  else match s with
       | [] => None
       | _ :: s' => option_map S (find sub s')
       end.

(** [sub in s]. *)
Definition contains (sub s : str) : bool :=
  match find sub s with
  | Some _ => true
  | None => false
  end.

Lemma startswith_app (p s : str) : startswith p (p ++ s) = true.
Proof.
  induction p as [|a p IH]; simpl; [reflexivity|].
  now rewrite N.eqb_refl, IH.
Qed.

Lemma startswith_split (p s : str) :
  startswith p s = true -> s = p ++ skipn (length p) s.
Proof.
  revert s; induction p as [|a p IH]; intros [|b s] H; simpl in *;
    try reflexivity; try discriminate.
  apply andb_prop in H as [Hab Hp].
  apply N.eqb_eq in Hab; subst b.
  f_equal; now apply IH.
Qed.

Lemma startswith_prefix (p q s : str) :
  startswith (p ++ q) s = true -> startswith p s = true.
Proof.
  revert s; induction p as [|a p IH]; intros [|b s] H; simpl in *;
    try reflexivity; try discriminate.
  apply andb_prop in H as [Hab Hp].
  rewrite Hab; simpl; now apply IH.
Qed.

Lemma find_bound (sub s : str) (i : nat) :
  find sub s = Some i -> i + length sub <= length s.
Proof.
  revert i; induction s as [|c s IH]; intros i H; simpl in H.
  - destruct (startswith sub []) eqn:E; [|discriminate].
    injection H as <-. destruct sub; [simpl; lia | discriminate].
  - destruct (startswith sub (c :: s)) eqn:E.
    + injection H as <-.
      apply startswith_split in E.
      apply (f_equal (@length _)) in E. rewrite length_app in E.
      simpl in *; lia.
    + destruct (find sub s) as [j|]; [|discriminate].
      injection H as <-. specialize (IH j eq_refl). simpl; lia.
Qed.

Definition inspect {A} (a : A) : {b : A | a = b} := exist _ a eq_refl.

(** The loop of [str.split(sep)] for a non-empty separator: cut at the
    leftmost occurrence, continue after it, and end with the remainder. *)
Equations? split_loop (sep s : str) : list str by wf (length s) lt :=
  split_loop [] s := [s];
  split_loop (c :: sep') s with inspect (find (c :: sep') s) := {
    | exist _ (Some i) e =>
        firstn i s :: split_loop (c :: sep') (skipn (i + length (c :: sep')) s);
    | exist _ None e => [s] }.
Proof.
  apply find_bound in e. rewrite length_skipn. simpl in *. lia.
Qed.

(** [s.split(sep)]; an empty separator raises [ValueError]. *)
Definition split (sep s : str) : result (list str) :=
  match sep with
  | [] => Raise ValueError
  | _ :: _ => Ok (split_loop sep s)
  end.

(** [l[i]] for a non-negative index. *)
Definition index {A} (l : list A) (i : nat) : result A :=
  match nth_error l i with
  | Some a => Ok a
  | None => Raise IndexError
  end.

(** ** Response parser *)

Definition fence_open : str := pystr "```python".
Definition fence_close : str := pystr "```".
Definition rationale_header : str := pystr "RATIONALE:".
Definition fallback_report : str :=
  pystr "Report generated successfully. Review the code below.".

(** The body of the [try] in [extract_code]:
    [text.split("```python")[1].split("```")[0].strip()]. *)
Definition extract_code_body (text : str) : result str :=
  (parts <- split fence_open text ;;
   after <- index parts 1 ;;
   pieces <- split fence_close after ;;
   inner <- index pieces 0 ;;
   Ok (strip inner))%py.

(** [extract_code]: the bare [except] turns every exception into [""]. *)
Definition extract_code (text : str) : str :=
  match extract_code_body text with
  | Ok s => s
  | Raise _ => []
  end.

(** [extract_report]. *)
Definition extract_report (text : str) : result str :=
  if contains rationale_header text then
    (parts <- split fence_open text ;;
     before <- index parts 0 ;;
     Ok (strip before))%py
  else Ok fallback_report.

(** ** Tables *)

(** A cell of a column: an integer, a float, a text, a boolean, or the
    missing marker [None]; a float cell holding NaN is missing too. *)
Inductive cell :=
| VInt (z : Z)
| VFloat (f : float)
| VStr (s : str)
| VBool (b : bool)
| VNone.

(** [pandas.isnull] on one cell. *)
Definition isnull (c : cell) : bool :=
  match c with
  | VNone => true
  | VFloat f => PrimFloat.is_nan f
  | _ => false
  end.

(** A [DataFrame]: its number of rows ([len(df.index)]) and its named
    columns, in order. *)
Record DataFrame := {
  nrows : nat;
  columns : list (str * list cell)
}.

(** Every column has one cell per row. *)
Definition well_formed (df : DataFrame) : Prop :=
  Forall (fun col => length (snd col) = nrows df) (columns df).

(** [len(df)]. *)
Definition len (df : DataFrame) : nat := nrows df.

(** [df.head(n)]. *)
Definition head (n : nat) (df : DataFrame) : DataFrame :=
  {| nrows := Nat.min n (nrows df);
     columns := map (fun col => (fst col, firstn n (snd col))) (columns df) |}.

(** [df.copy()]: a new object with the same contents. Tables are values
    here, so the copy is what lets [exec] change its argument and leave
    the original alone. *)
Definition copy (df : DataFrame) : DataFrame := df.

(** [df.isnull().sum()]: per column, the number of missing cells. *)
Definition isnull_sum (df : DataFrame) : list (str * nat) :=
  map (fun col => (fst col, length (filter isnull (snd col)))) (columns df).

(** ** float64 arithmetic of the summary *)

(** An integer count as a float64. *)
Definition float_of_nat (k : nat) : float :=
  PrimFloat.of_uint63 (Uint63.of_Z (Z.of_nat k)).

Definition two52 : float := 4503599627370496%float.

(** [numpy.rint]: the nearest integer, ties to even (adding and
    subtracting 2^52 rounds a smaller magnitude to an integer in the
    default rounding mode; larger magnitudes and NaN are integers or
    unchanged already). *)
Definition rint (x : float) : float :=
  if PrimFloat.ltb (PrimFloat.abs x) two52 then
    let r := (PrimFloat.abs x + two52 - two52)%float in
    if PrimFloat.ltb x 0 then PrimFloat.opp r else r
  else x.

(** [Series.round(2)] on one float64: numpy multiplies by 100, rounds to
    an integer and divides by 100. *)
Definition round2 (x : float) : float := (rint (x * 100) / 100)%float.

(** [(missing_data[missing_data > 0] / len(df) * 100).round(2)]. *)
Definition missing_pct (df : DataFrame) : list (str * float) :=
  map (fun e =>
         (fst e, round2 (float_of_nat (snd e) / float_of_nat (len df) * 100)%float))
      (filter (fun e => 0 <? snd e) (isnull_sum df)).

(** ** Summary builder *)

Section SummaryBuilder.

(** The markdown renderer ([tabulate] behind [to_markdown]) is outside
    the program: [md_rows] stands for
    [frame.to_markdown(index=False)], [md_dtypes] for
    [df.dtypes.to_frame(name='Dtype').to_markdown()] and [md_series] for
    [series.to_frame(name=n).to_markdown()]. *)
Variable md_rows : DataFrame -> str.
Variable md_dtypes : DataFrame -> str.
Variable md_series : str -> list (str * float) -> str.

Definition prompt_intro : str := pystr "
You are an expert Data Profiler and Python Data Cleaning Agent.
Your task is to analyze the data and generate a single Python code block to clean the DataFrame named 'df'.

STRUCTURE:
1. **RATIONALE:** Detailed markdown report on data issues.
2. **CODE BLOCK:** One Python block starting with ```python and ending with ```.

DATA SUMMARY:
".

Definition dtypes_heading : str := pystr "

DTYPES:
".

Definition missing_heading : str := pystr "

MISSING DATA:
".

(** [generate_llm_prompt]. *)
Definition generate_llm_prompt (df : DataFrame) : str :=
  let initial_summary := md_rows (head 5 df) in
  let dtype_summary := md_dtypes df in
  let missing_summary := md_series (pystr "Missing_Percentage") (missing_pct df) in
  prompt_intro ++ initial_summary
    ++ dtypes_heading ++ dtype_summary
    ++ missing_heading ++ missing_summary ++ pystr "
".

End SummaryBuilder.

(** ** Row records and the webhook payload *)

Fixpoint str_eqb (a b : str) : bool :=
  match a, b with
  | [], [] => true
  | x :: a', y :: b' => N.eqb x y && str_eqb a' b'
  | _, _ => false
  end.

(** A Python [dict] with [str] keys, in insertion order. *)
Definition dict (V : Type) := list (str * V).

(** [d[k] = v]: an existing key keeps its place and takes the new value. *)
Fixpoint dict_set {V} (k : str) (v : V) (d : dict V) : dict V :=
  match d with
  | [] => [(k, v)]
  | (k', v') :: d' =>
      if str_eqb k k' then (k, v) :: d' else (k', v') :: dict_set k v d'
  end.

Fixpoint dict_get {V} (k : str) (d : dict V) : option V :=
  match d with
  | [] => None
  | (k', v') :: d' => if str_eqb k k' then Some v' else dict_get k d'
  end.

(** Row [i] as a record: one entry per column name. *)
Definition row_record (df : DataFrame) (i : nat) : dict cell :=
  fold_left (fun d col => dict_set (fst col) (nth i (snd col) VNone) d)
            (columns df) [].

(** [df.to_dict(orient='records')]. *)
Definition to_dict_records (df : DataFrame) : list (dict cell) :=
  map (row_record df) (seq 0 (nrows df)).

(** The values the payload holds. *)
Inductive pyval :=
| PStr (s : str)
| PRecords (rows : list (dict cell)).

(** The keyword arguments of [requests.post(url, json=..., timeout=...)]. *)
Record request := {
  req_url : str;
  req_json : dict pyval;
  req_timeout : Z
}.

(** ** Clock *)

(** The fields of [time.localtime()] that the format uses. *)
Record struct_time := {
  tm_year : Z;
  tm_mon : Z;
  tm_mday : Z;
  tm_hour : Z;
  tm_min : Z;
  tm_sec : Z
}.

Definition digit (n : Z) : char := Z.to_N (48 + n mod 10).

Fixpoint decimal_digits (fuel : nat) (n : Z) : str :=
  match fuel with
  | 0 => []
  | S fuel' =>
      if (n <? 10)%Z then [digit n]
      else decimal_digits fuel' (n / 10) ++ [digit n]
  end.

(** A non-negative [n] in decimal ([n] has at most [n + 1] digits). *)
Definition decimal (n : Z) : str := decimal_digits (S (Z.to_nat n)) n.

(** [n] in decimal, zero-padded to two digits. *)
Definition pad2 (n : Z) : str :=
  if (n <? 10)%Z then pystr "0" ++ decimal n else decimal n.

(** One conversion of [strftime]: the six the program uses; any other is
    left as written. *)
Definition directive (c : char) (t : struct_time) : str :=
  if (c =? 89)%N then decimal (tm_year t)        (* %Y *)
  else if (c =? 109)%N then pad2 (tm_mon t)      (* %m *)
  else if (c =? 100)%N then pad2 (tm_mday t)     (* %d *)
  else if (c =? 72)%N then pad2 (tm_hour t)      (* %H *)
  else if (c =? 77)%N then pad2 (tm_min t)       (* %M *)
  else if (c =? 83)%N then pad2 (tm_sec t)       (* %S *)
  else [37%N; c].

(** [time.strftime(fmt, t)]. *)
Fixpoint strftime (fmt : str) (t : struct_time) : str :=
  match fmt with
  | [] => []
  | c :: rest =>
      if (c =? 37)%N then
        match rest with
        | d :: rest' => directive d t ++ strftime rest' t
        | [] => [c]
        end
      else c :: strftime rest t
  end.

(** A calendar time with a four-digit year. *)
Definition valid_time (t : struct_time) : Prop :=
  (1000 <= tm_year t <= 9999 /\ 1 <= tm_mon t <= 12 /\ 1 <= tm_mday t <= 31 /\
   0 <= tm_hour t <= 23 /\ 0 <= tm_min t <= 59 /\ 0 <= tm_sec t <= 61)%Z.

Definition isdigit (c : char) : bool := ((48 <=? c) && (c <=? 57))%N.

(** The shape [YYYY-MM-DD HH:MM:SS]. *)
Definition timestamp_shape (s : str) : bool :=
  match s with
  | [y1; y2; y3; y4; h1; m1; m2; h2; d1; d2; sp; a1; a2; c1; b1; b2; c2; s1; s2] =>
      forallb isdigit [y1; y2; y3; y4; m1; m2; d1; d2; a1; a2; b1; b2; s1; s2]
      && (h1 =? 45)%N && (h2 =? 45)%N && (sp =? 32)%N
      && (c1 =? 58)%N && (c2 =? 58)%N
  | _ => false
  end.

(** ** pandas operations of the cleaning snippet *)

Definition float_of_Z (z : Z) : float :=
  if (z <? 0)%Z then PrimFloat.opp (PrimFloat.of_uint63 (Uint63.of_Z (- z)))
  else PrimFloat.of_uint63 (Uint63.of_Z z).

Definition cell_number (c : cell) : option float :=
  match c with
  | VInt z => Some (float_of_Z z)
  | VFloat f => Some f
  | VBool b => Some (if b then 1%float else 0%float)
  | VStr _ | VNone => None
  end.

Definition is_text (c : cell) : bool :=
  match c with
  | VStr _ => true
  | _ => false
  end.

(** [series.mean()]: missing cells are skipped; the sum of the others
    over their count (NaN when there is none). A column holding text
    raises the [TypeError] of pandas' string columns. *)
Definition Series_mean (col : list cell) : result float :=
  if existsb is_text col then
    Raise (Exception_ (pystr "Cannot perform reduction 'mean' with string dtype"))
  else
    let present := filter (fun c => negb (isnull c)) col in
    let total :=
      fold_left (fun acc c =>
                   match cell_number c with
                   | Some x => (acc + x)%float
                   | None => acc
                   end) present 0%float in
    Ok (total / float_of_nat (length present))%float.

(** [series.fillna(value)]. *)
Definition fillna (value : float) (col : list cell) : list cell :=
  map (fun c => if isnull c then VFloat value else c) col.

(** [df[key]]. *)
Definition getitem (df : DataFrame) (key : str) : result (list cell) :=
  match dict_get key (columns df) with
  | Some col => Ok col
  | None => Raise (KeyError key)
  end.

(** [df[key] = col]. *)
Definition setitem (df : DataFrame) (key : str) (col : list cell) : DataFrame :=
  {| nrows := nrows df; columns := dict_set key col (columns df) |}.

(** The snippet of the end-to-end scenario, and what it does to the table
    bound to [df]. *)
Definition fillna_mean_snippet : str :=
  pystr "df['age'] = df['age'].fillna(df['age'].mean())".

Definition run_fillna_mean (df : DataFrame) : result DataFrame :=
  (age <- getitem df (pystr "age") ;;
   m <- Series_mean age ;;
   Ok (setitem df (pystr "age") (fillna m age)))%py.

(** ** Session state, log, page and network *)

Inductive level := INFO | ERROR.

(** What the page shows ([st.error]). *)
Inductive ui_event :=
| StError (msg : str).

(** The keys of [st.session_state] the program uses; [None] is an unset
    key. *)
Record session_state := {
  ss_df_original : option DataFrame;
  ss_df_clean : option DataFrame;
  ss_report_text : option str;
  ss_cleaning_code : option str
}.

(** What the program has done so far: the session state, the lines it
    logged, what it put on the page, and the calls it made to
    [requests.post], in order, each with its arguments. A call is recorded
    when it is made; whether the library then puts anything on the network
    is part of what the call answers. *)
Record world := {
  session : session_state;
  logs : list (level * str);
  screen : list ui_event;
  post_calls : list request
}.

(** A computation that reads and writes the world and may raise. *)
Definition M (A : Type) : Type := world -> result A * world.

Definition ret {A} (a : A) : M A := fun w => (Ok a, w).

Definition raise {A} (e : exn) : M A := fun w => (Raise e, w).

Definition bind {A B} (m : M A) (k : A -> M B) : M B :=
  fun w =>
    match m w with
    | (Ok a, w') => k a w'
    | (Raise e, w') => (Raise e, w')
    end.

Definition lift {A} (r : result A) : M A := fun w => (r, w).

(** [try: m  except Exception as e: h e]. What [m] did before it raised
    stays done. *)
Definition try_except {A} (m : M A) (h : exn -> M A) : M A :=
  fun w =>
    match m w with
    | (Ok a, w') => (Ok a, w')
    | (Raise e, w') => if is_Exception e then h e w' else (Raise e, w')
    end.

Declare Scope m_scope.
Delimit Scope m_scope with m.
Notation "x <- m ;; k" := (bind m (fun x => k))
  (at level 61, m at next level, right associativity) : m_scope.
Notation "m ;; k" := (bind m (fun _ => k))
  (at level 61, right associativity) : m_scope.

Definition with_session (s : session_state) (w : world) : world :=
  {| session := s; logs := logs w; screen := screen w; post_calls := post_calls w |}.

Definition logger (l : level) (msg : str) : M unit :=
  fun w => (Ok tt, {| session := session w; logs := logs w ++ [(l, msg)];
                      screen := screen w; post_calls := post_calls w |}).

Definition st_error (msg : str) : M unit :=
  fun w => (Ok tt, {| session := session w; logs := logs w;
                      screen := screen w ++ [StError msg]; post_calls := post_calls w |}).

(** [st.stop()]. *)
Definition st_stop {A} : M A := raise StopException.

(** [st.session_state['df_original']]. *)
Definition get_df_original : M DataFrame :=
  fun w =>
    match ss_df_original (session w) with
    | Some df => (Ok df, w)
    | None => (Raise (KeyError (pystr "df_original")), w)
    end.

(** [st.session_state['df_clean'] = df]. *)
Definition set_df_clean (df : DataFrame) : M unit :=
  fun w =>
    let s := session w in
    (Ok tt, with_session {| ss_df_original := ss_df_original s; ss_df_clean := Some df;
                            ss_report_text := ss_report_text s;
                            ss_cleaning_code := ss_cleaning_code s |} w).

(** [st.session_state['report_text'] = text]. *)
Definition set_report_text (text : str) : M unit :=
  fun w =>
    let s := session w in
    (Ok tt, with_session {| ss_df_original := ss_df_original s; ss_df_clean := ss_df_clean s;
                            ss_report_text := Some text;
                            ss_cleaning_code := ss_cleaning_code s |} w).

(** [st.session_state['cleaning_code'] = code]. *)
Definition set_cleaning_code (code : str) : M unit :=
  fun w =>
    let s := session w in
    (Ok tt, with_session {| ss_df_original := ss_df_original s; ss_df_clean := ss_df_clean s;
                            ss_report_text := ss_report_text s;
                            ss_cleaning_code := Some code |} w).

Section Services.

(** The world outside the program.
    - [generate_content model contents]: [response.text] of the text
      generation service ([None] or empty when blocked), or the
      exception the call raises.
    - [py_exec code df]: the Python interpreter running [code] with the
      globals [pd], [np] and [df], the table object passed; it returns
      that object as the snippet leaves it, or the exception the snippet
      raises. The caller keeps its own reference to the object, so a
      snippet that only rebinds the name [df] leaves it as it was.
    - [post request]: what the call [requests.post(...)] answers: the
      status code of the HTTP response, or the exception the call raises,
      be it before anything is transmitted (a body that cannot be
      encoded, a URL the library refuses) or after (connection failure,
      timeout).
    - [localtime]: the clock reading [time.strftime] formats.
    - the markdown renderers of the summary builder. *)
Variable generate_content : str -> str -> result (option str).
Variable py_exec : str -> DataFrame -> result DataFrame.
Variable post : request -> result Z.
Variable localtime : struct_time.
Variable md_rows : DataFrame -> str.
Variable md_dtypes : DataFrame -> str.
Variable md_series : str -> list (str * float) -> str.

(** [requests.post(url, json=json, timeout=timeout).status_code]: the
    call is made, and the library answers. *)
Definition requests_post (url : str) (json : dict pyval) (timeout : Z) : M Z :=
  fun w =>
    let r := {| req_url := url; req_json := json; req_timeout := timeout |} in
    (post r, {| session := session w; logs := logs w; screen := screen w;
                post_calls := post_calls w ++ [r] |}).

(** [exec(code, {'pd': pd, 'np': np, 'df': df})], then the object [df]
    as the snippet left it. *)
Definition exec (code : str) (df : DataFrame) : M DataFrame :=
  lift (py_exec code df).

Definition webhook_payload (dataframe : DataFrame) : dict pyval :=
  let data_json := to_dict_records (head 100 dataframe) in
  [ (pystr "source", PStr (pystr "Smart Data Profiler App"));
    (pystr "timestamp", PStr (strftime (pystr "%Y-%m-%d %H:%M:%S") localtime));
    (pystr "data", PRecords data_json) ].

(** [send_to_webhook]. *)
Definition send_to_webhook (dataframe : DataFrame) (webhook_url : str) : M bool :=
  try_except
    (let payload := webhook_payload dataframe in
     status_code <- requests_post webhook_url payload 10 ;;
     ret (status_code =? 200)%Z)%m
    (fun e =>
       logger ERROR (pystr "Webhook error: " ++ exn_str e) ;;
       ret false)%m.

(** The handler of the button "Analyze & Generate Cleaning Plan". *)
Definition analyze_click : M unit :=
  (logger INFO (pystr "Starting AI Analysis Pipeline...") ;;
   df_original <- get_df_original ;;
   let prompt := generate_llm_prompt md_rows md_dtypes md_series df_original in
   try_except
     (response_text <- lift (generate_content (pystr "gemini-2.0-flash") prompt) ;;
      text <- match response_text with
              | Some (c :: t) => ret (c :: t)
              | Some [] | None =>
                  st_error ([9888; 65039]%N ++ pystr " AI response blocked or empty.") ;;
                  st_stop
              end ;;
      let cleaning_code := extract_code text in
      report_text <- lift (extract_report text) ;;
      df_original <- get_df_original ;;
      let df_clean := copy df_original in
      df_clean <- exec cleaning_code df_clean ;;
      set_df_clean df_clean ;;
      set_report_text report_text ;;
      set_cleaning_code cleaning_code ;;
      logger INFO (pystr "Pipeline successful."))
     (fun e =>
        logger ERROR (pystr "Pipeline failure: " ++ exn_str e) ;;
        st_error ([10060; 32]%N ++ pystr "AI Processing Error: " ++ exn_str e)))%m.

End Services.

(** ** Notions the statements use *)

(** [sub] occurs somewhere in [s]. *)
Definition occurs (sub s : str) : Prop :=
  exists pre post, s = pre ++ sub ++ post.

(** A status of the 2xx class. *)
Definition is_2xx (status_code : Z) : bool :=
  ((200 <=? status_code) && (status_code <? 300))%Z.

Definition timestamp_format : str := pystr "%Y-%m-%d %H:%M:%S".

(** The call [send_to_webhook] makes: the arguments it gives
    [requests.post]. *)
Definition webhook_request (localtime : struct_time) (dataframe : DataFrame)
    (webhook_url : str) : request :=
  {| req_url := webhook_url;
     req_json := webhook_payload localtime dataframe;
     req_timeout := 10 |}.

Definition with_post_call (r : request) (w : world) : world :=
  {| session := session w; logs := logs w; screen := screen w;
     post_calls := post_calls w ++ [r] |}.

Definition with_log (l : level) (msg : str) (w : world) : world :=
  {| session := session w; logs := logs w ++ [(l, msg)]; screen := screen w;
     post_calls := post_calls w |}.

(** The constants of the analysis step. *)
Definition model_name : str := pystr "gemini-2.0-flash".

Definition start_message : str := pystr "Starting AI Analysis Pipeline...".

Definition failure_log (e : exn) : str := pystr "Pipeline failure: " ++ exn_str e.

Definition failure_banner (e : exn) : str :=
  [10060; 32]%N ++ pystr "AI Processing Error: " ++ exn_str e.

(** The table of the end-to-end scenario: integer ids, names, and ages. *)
Definition scenario_table (i1 i2 i3 : Z) (n1 n2 n3 : str) (ages : list cell)
  : DataFrame :=
  {| nrows := 3;
     columns := [ (pystr "id", [VInt i1; VInt i2; VInt i3]);
                  (pystr "name", [VStr n1; VStr n2; VStr n3]);
                  (pystr "age", ages) ] |}.

(** ** Sample replies of the service *)

(** A reply whose code block is never closed. *)
Definition unclosed_reply : str := pystr "RATIONALE: drop nulls
```python
df = df.dropna()".

(** A reply with the rationale header and no code block. *)
Definition report_only_reply : str := pystr "RATIONALE: all columns are clean.".

(** A reply whose unclosed code block ends in a backtick. *)
Definition backtick_reply : str := pystr "```python
df = df.dropna()  # cleans `df`".

(** A reply without the header and without a code block. *)
Definition clean_reply : str := pystr "The data needs no cleaning.".

(** A reply whose snippet does not parse. *)
Definition broken_reply : str := pystr "RATIONALE: drop the rows with nulls.
```python
df = df.dropna(
```".

(** A reply whose snippet ends the interpreter. *)
Definition exit_reply : str := pystr "RATIONALE: nothing can be done.
```python
raise SystemExit
```".

(** A reply whose code block holds a comment and no statement. *)
Definition comment_reply : str := pystr "RATIONALE: the data is clean.
```python
# nothing to clean
```".

(** A reply that carries the snippet of the scenario. *)
Definition fillna_reply : str := pystr "1. **RATIONALE:** one age is missing; fill it with the mean.
2. **CODE BLOCK:**
```python
df['age'] = df['age'].fillna(df['age'].mean())
```".

(** ** Sample tables, clock reading, world and services *)

(** A table with two columns and no row. *)
Definition empty_table : DataFrame :=
  {| nrows := 0; columns := [(pystr "id", []); (pystr "age", [])] |}.

Definition people_sample : DataFrame :=
  {| nrows := 2;
     columns := [ (pystr "id", [VInt 1; VInt 2]);
                  (pystr "name", [VStr (pystr "Ann"); VStr (pystr "Bob")]) ] |}.

(** Three people, the age of the second one missing. *)
Definition people : DataFrame :=
  scenario_table 1 2 3 (pystr "Ann") (pystr "Bob") (pystr "Cy")
    [VFloat 30; VFloat PrimFloat.nan; VFloat 41].

Definition noon : struct_time :=
  {| tm_year := 2024; tm_mon := 5; tm_mday := 17;
     tm_hour := 12; tm_min := 0; tm_sec := 9 |}.

Definition hook_url : str := pystr "https://hooks.example/abc".

Definition blank_world : world :=
  {| session := {| ss_df_original := None; ss_df_clean := None;
                   ss_report_text := None; ss_cleaning_code := None |};
     logs := []; screen := []; post_calls := [] |}.

(** The world right after [df] was uploaded. *)
Definition uploaded (df : DataFrame) : world :=
  {| session := {| ss_df_original := Some df; ss_df_clean := None;
                   ss_report_text := None; ss_cleaning_code := None |};
     logs := []; screen := []; post_calls := [] |}.

(** An interpreter for the sample runs: it runs the empty program and the
    snippet of the end-to-end scenario, and rejects anything else. *)
Definition scenario_interpreter (code : str) (df : DataFrame) : result DataFrame :=
  match code with
  | [] => Ok df
  | _ :: _ =>
      if str_eqb code fillna_mean_snippet then run_fillna_mean df
      else Raise (Exception_ (pystr "invalid syntax"))
  end.

(** The same interpreter, which also runs [raise SystemExit]: the
    exception is outside the [Exception] hierarchy and its message is
    empty. *)
Definition exiting_interpreter (code : str) (df : DataFrame) : result DataFrame :=
  if str_eqb code (pystr "raise SystemExit") then Raise (BaseException_ [])
  else scenario_interpreter code df.

(** A renderer that prints nothing. *)
Definition no_markdown_rows (df : DataFrame) : str := [].

Definition no_markdown_series (name : str) (s : list (str * float)) : str := [].

(** ** [str.join] *)

(** [sep.join(parts)]. *)
Fixpoint join (sep : str) (parts : list str) : str :=
  match parts with
  | [] => []
  | [p] => p
  | p :: rest => p ++ sep ++ join sep rest
  end.

(** ** The rest of the page script *)

(** [st.session_state['df_original'] = df]. *)
Definition set_df_original (df : DataFrame) : M unit :=
  fun w =>
    let s := session w in
    (Ok tt, with_session {| ss_df_original := Some df;
                            ss_df_clean := ss_df_clean s;
                            ss_report_text := ss_report_text s;
                            ss_cleaning_code := ss_cleaning_code s |} w).

(** The upload branch: the file is parsed only when the session holds no
    original table yet. [read_csv] is what [pd.read_csv(uploaded_file)]
    returns or raises. *)
Definition load_upload (read_csv : result DataFrame) : M unit :=
  fun w =>
    match ss_df_original (session w) with
    | Some _ => (Ok tt, w)
    | None => bind (lift read_csv) set_df_original w
    end.

(** [st.session_state['df_clean']]. *)
Definition get_df_clean : M DataFrame :=
  fun w =>
    match ss_df_clean (session w) with
    | Some df => (Ok df, w)
    | None => (Raise (KeyError (pystr "df_clean")), w)
    end.

(** [st.session_state['report_text']]. *)
Definition get_report_text : M str :=
  fun w =>
    match ss_report_text (session w) with
    | Some s => (Ok s, w)
    | None => (Raise (KeyError (pystr "report_text")), w)
    end.

(** [st.session_state['cleaning_code']]. *)
Definition get_cleaning_code : M str :=
  fun w =>
    match ss_cleaning_code (session w) with
    | Some s => (Ok s, w)
    | None => (Raise (KeyError (pystr "cleaning_code")), w)
    end.

(** ['df_clean' in st.session_state]. *)
Definition has_df_clean : M bool :=
  fun w =>
    match ss_df_clean (session w) with
    | Some _ => (Ok true, w)
    | None => (Ok false, w)
    end.

(** What a run of the script renders, apart from the errors [st.error]
    puts on the page. *)
Inductive widget :=
| Subheader (text : str)
| Markdown (body : str)
| Code (body : str)
| Dataframe (data : DataFrame)
| DownloadButton (label : str) (data : str) (file_name : str) (mime : str)
| Divider.

(** The outcome the webhook button reports: [st.success], [st.error] or
    [st.warning] with its message. *)
Inductive banner :=
| Success (msg : str)
| Error (msg : str)
| Warning (msg : str).

(** What the user did before this run of the script: the uploaded file
    ([None] when there is none, otherwise what [pd.read_csv] makes of it),
    the two buttons and the text of the URL field. *)
Record inputs := {
  uploaded_file : option (result DataFrame);
  analyze_button : bool;
  webhook_url_input : str;
  trigger_button : bool
}.

Section Script.

Variable generate_content : str -> str -> result (option str).
Variable py_exec : str -> DataFrame -> result DataFrame.
Variable post : request -> result Z.
Variable localtime : struct_time.
Variable md_rows : DataFrame -> str.
Variable md_dtypes : DataFrame -> str.
Variable md_series : str -> list (str * float) -> str.

(** [df.to_csv(index=False).encode('utf-8')], outside the program. *)
Variable to_csv : DataFrame -> str.

(** The results display. *)
Definition results_display : M (list widget) :=
  (report_text <- get_report_text ;;
   cleaning_code <- get_cleaning_code ;;
   df_clean <- get_df_clean ;;
   df_clean' <- get_df_clean ;;
   let csv := to_csv df_clean' in
   ret [ Subheader (pystr "2. AI Rationale"); Markdown report_text;
         Subheader (pystr "3. Generated Code"); Code cleaning_code;
         Subheader (pystr "4. Cleaned Data Preview"); Dataframe (head 10 df_clean);
         DownloadButton ([11015; 65039]%N ++ pystr " Download Cleaned CSV") csv
           (pystr "cleaned_data.csv") (pystr "text/csv");
         Divider;
         Subheader ([128640]%N ++ pystr " 5. Automation Workflow") ])%m.

(** The handler of the button "Trigger Automation Pipeline". *)
Definition trigger_click (webhook_url : str) : M banner :=
  match webhook_url with
  | _ :: _ =>
      (df_clean <- get_df_clean ;;
       ok <- send_to_webhook post localtime df_clean webhook_url ;;
       if ok : bool
       then ret (Success ([9989]%N ++ pystr " Data successfully sent to automation pipeline!"))
       else ret (Error ([10060]%N ++ pystr " Webhook delivery failed. Check URL or logs.")))%m
  | [] => ret (Warning (pystr "Please provide a Webhook URL first."))
  end.

(** One run of the script below the page header. *)
Definition script_run (inp : inputs) : M (list widget * option banner) :=
  match uploaded_file inp with
  | None => ret ([], None)
  | Some read_csv =>
      (load_upload read_csv ;;
       df_original <- get_df_original ;;
       let sample := [ Subheader (pystr "1. Original Data Sample");
                       Dataframe (head 10 df_original) ] in
       (if analyze_button inp
        then analyze_click generate_content py_exec md_rows md_dtypes md_series
        else ret tt) ;;
       shown <- has_df_clean ;;
       if shown : bool then
         results <- results_display ;;
         note <- (if trigger_button inp
                  then b <- trigger_click (webhook_url_input inp) ;; ret (Some b)
                  else ret None) ;;
         ret (sample ++ results, note)
       else ret (sample, None))%m
  end.

End Script.

(** The messages of the webhook button and the widgets of the display. *)
Definition success_message : str :=
  [9989]%N ++ pystr " Data successfully sent to automation pipeline!".

Definition failure_message : str :=
  [10060]%N ++ pystr " Webhook delivery failed. Check URL or logs.".

Definition warning_message : str := pystr "Please provide a Webhook URL first.".

Definition sample_widgets (df_original : DataFrame) : list widget :=
  [ Subheader (pystr "1. Original Data Sample"); Dataframe (head 10 df_original) ].

Definition results_widgets (to_csv : DataFrame -> str) (report_text : str)
    (cleaning_code : str) (df_clean : DataFrame) : list widget :=
  [ Subheader (pystr "2. AI Rationale"); Markdown report_text;
    Subheader (pystr "3. Generated Code"); Code cleaning_code;
    Subheader (pystr "4. Cleaned Data Preview"); Dataframe (head 10 df_clean);
    DownloadButton ([11015; 65039]%N ++ pystr " Download Cleaned CSV")
      (to_csv df_clean) (pystr "cleaned_data.csv") (pystr "text/csv");
    Divider;
    Subheader ([128640]%N ++ pystr " 5. Automation Workflow") ].

(** The cells of the last column named [k], if any. *)
Definition last_column (k : str) (cols : list (str * list cell)) : option (list cell) :=
  fold_left (fun acc col => if str_eqb k (fst col) then Some (snd col) else acc)
            cols None.

(** ** Start of the script *)

Section Startup.

(** The client of the text generation service, and what
    [genai.Client(api_key=key)] returns or raises. *)
Variable client : Type.
Variable make_client : str -> result client.

(** [a or b] on two optional strings: [a] when it is a non-empty string,
    [b] otherwise. *)
Definition or_else (a b : option str) : option str :=
  match a with
  | Some (c :: k) => Some (c :: k)
  | Some [] | None => b
  end.

Definition no_key_message : str :=
  [128680]%N ++ pystr " CRITICAL ERROR: GEMINI_API_KEY not found. Please add it to Streamlit Secrets.".

(** Configuration and initialization: [secret] is what
    [st.secrets.get("GEMINI_API_KEY")] returns or raises, [env] what
    [os.getenv("GEMINI_API_KEY")] returns. *)
Definition startup (secret : result (option str)) (env : option str) : M client :=
  (from_secrets <- lift secret ;;
   let GEMINI_API_KEY := or_else from_secrets env in
   key <- match GEMINI_API_KEY with
          | Some (c :: k) => ret (c :: k)
          | Some [] | None => st_error no_key_message ;; st_stop
          end ;;
   try_except
     (lift (make_client key))
     (fun e =>
        logger ERROR (pystr "Initialization Failure: " ++ exn_str e) ;;
        st_error ([10060; 32]%N ++ pystr "Failed to initialize Gemini Client: "
                    ++ exn_str e) ;;
        st_stop))%m.

End Startup.

(** ** The libraries behind the parameters *)

(** [json.dumps(value, allow_nan=False)] encodes every float but NaN and
    the infinities. *)
Definition json_float (f : float) : bool :=
  negb (PrimFloat.is_nan f) && negb (PrimFloat.is_infinity f).

Definition json_cell (c : cell) : bool :=
  match c with
  | VFloat f => json_float f
  | _ => true
  end.

Definition json_record (row : dict cell) : bool :=
  forallb (fun e => json_cell (snd e)) row.

Definition json_value (v : pyval) : bool :=
  match v with
  | PStr _ => true
  | PRecords rows => forallb json_record rows
  end.

(** The payload can be encoded as the body of a request. *)
Definition json_compliant (payload : dict pyval) : bool :=
  forallb (fun e => json_value (snd e)) payload.

(** [requests.post] as the library works: before it connects it prepares
    the request, and encodes the [json] argument with [allow_nan=False].
    A call whose payload cannot be encoded never gets further: it raises
    [InvalidJSONError] (or, for a URL the library refuses, the error of
    that earlier check), an exception of the [Exception] hierarchy with
    the message [refusal r], and nothing is posted. [transport] answers
    for the calls whose body was encoded: the status code of the
    response, or the exception of another stage. *)
Definition requests_library (refusal : request -> str)
    (transport : request -> result Z) (r : request) : result Z :=
  if json_compliant (req_json r) then transport r
  else Raise (Exception_ (refusal r)).

(** The lines of a source text: [\n] and [\r] end a line. *)
Fixpoint source_lines (line s : str) : list str :=
  match s with
  | [] => [line]
  | c :: s' =>
      if (c =? 10)%N || (c =? 13)%N then line :: source_lines [] s'
      else source_lines (line ++ [c]) s'
  end.

(** A line the Python tokenizer skips: spaces, tabs and form feeds, then
    nothing more or a comment; a comment holds no NUL and no surrogate
    code point. *)
Definition comment_char (c : char) : bool :=
  negb (c =? 0)%N && negb ((55296 <=? c)%N && (c <=? 57343)%N).

Fixpoint blank_line (l : str) : bool :=
  match l with
  | [] => true
  | c :: l' =>
      if (c =? 32)%N || (c =? 9)%N || (c =? 12)%N then blank_line l'
      else (c =? 35)%N && forallb comment_char l'
  end.

(** The source holds no statement. *)
Definition no_statement (code : str) : bool :=
  forallb blank_line (source_lines [] code).

(** [exec(code, globals)] as Python runs it: a source without a statement
    (the empty string, blank lines, comments) compiles to an empty module,
    and running it touches no object; [run] answers for a source that
    holds more. *)
Definition python_exec (run : str -> DataFrame -> result DataFrame)
    (code : str) (df : DataFrame) : result DataFrame :=
  if no_statement code then Ok df else run code df.
(** ** Facts about [find], [split_loop] and [strip] *)

Lemma find_Some_split (sub s : str) (i : nat) :
  find sub s = Some i ->
  s = firstn i s ++ sub ++ skipn (i + length sub) s.
Proof.
  revert i; induction s as [|c s IH]; intros i H; simpl in H.
  - destruct (startswith sub []) eqn:E; [|discriminate].
    injection H as <-. now apply startswith_split in E.
  - destruct (startswith sub (c :: s)) eqn:E.
    + injection H as <-. now apply startswith_split in E.
    + destruct (find sub s) as [j|]; [|discriminate].
      injection H as <-. simpl. f_equal. now apply IH.
Qed.

Lemma find_None_startswith (sub s : str) :
  find sub s = None -> startswith sub s = false.
Proof.
  destruct s; simpl; destruct (startswith sub _); congruence.
Qed.

Lemma find_startswith (sub s : str) :
  startswith sub s = true -> find sub s = Some 0.
Proof.
  intros H. destruct s; simpl; now rewrite H.
Qed.

Lemma find_None_app (sub pre s : str) :
  find sub (pre ++ s) = None -> find sub s = None.
Proof.
  induction pre as [|c pre IH]; simpl; [auto|].
  destruct (startswith sub (c :: pre ++ s)); [discriminate|].
  destruct (find sub (pre ++ s)); [discriminate|]. auto.
Qed.

Lemma find_None_occurs (sub s : str) :
  find sub s = None <-> ~ occurs sub s.
Proof.
  split.
  - intros H (pre & post & ->).
    apply find_None_app, find_None_startswith in H.
    now rewrite startswith_app in H.
  - intros H. destruct (find sub s) as [i|] eqn:E; [|reflexivity].
    exfalso; apply H. apply find_Some_split in E.
    now exists (firstn i s), (skipn (i + length sub) s).
Qed.

Lemma contains_occurs (sub s : str) :
  contains sub s = true <-> occurs sub s.
Proof.
  unfold contains. destruct (find sub s) as [i|] eqn:E.
  - split; [intros _|reflexivity].
    apply find_Some_split in E.
    now exists (firstn i s), (skipn (i + length sub) s).
  - split; [discriminate|]. intros H.
    now apply find_None_occurs in E.
Qed.

Lemma contains_false_find (sub s : str) :
  contains sub s = false <-> find sub s = None.
Proof.
  unfold contains. destruct (find sub s); split; congruence.
Qed.

Lemma occurs_within (sub a t b : str) : occurs sub t -> occurs sub (a ++ t ++ b).
Proof.
  intros (pre & post & ->). exists (a ++ pre), (post ++ b).
  now rewrite <- !app_assoc.
Qed.

(** A string without [p] has no occurrence of a string that starts
    with [p]. *)
Lemma find_None_longer (p q s : str) :
  find p s = None -> find (p ++ q) s = None.
Proof.
  rewrite !find_None_occurs. intros H (pre & post & ->). apply H.
  exists pre, (q ++ post). now rewrite <- app_assoc.
Qed.

(** The text before the leftmost occurrence holds no occurrence. *)
Lemma find_firstn_None (sub s : str) (i : nat) :
  sub <> [] -> find sub s = Some i -> find sub (firstn i s) = None.
Proof.
  intros Hne. revert i; induction s as [|c s IH]; intros i H; simpl in H.
  - destruct (startswith sub []); [|discriminate].
    injection H as <-. destruct sub; [congruence | reflexivity].
  - destruct (startswith sub (c :: s)) eqn:E.
    + injection H as <-. destruct sub; [congruence | reflexivity].
    + destruct (find sub s) as [j|] eqn:F; [|discriminate].
      injection H as <-. simpl.
      rewrite (IH j eq_refl). simpl.
      destruct (startswith sub (c :: firstn j s)) eqn:G; [|reflexivity].
      exfalso. apply startswith_split in G.
      assert (S0 : startswith sub (c :: s) = true).
      { rewrite <- (firstn_skipn j s), app_comm_cons, G, <- app_assoc.
        apply startswith_app. }
      congruence.
Qed.

Lemma split_loop_None (sep s : str) :
  find sep s = None -> split_loop sep s = [s].
Proof.
  intros H. destruct sep as [|c sep']; simp split_loop; [reflexivity|].
  destruct (inspect (find (c :: sep') s)) as [[i|] e]; simpl;
    [congruence | reflexivity].
Qed.

Lemma split_loop_Some (sep s : str) (i : nat) :
  sep <> [] -> find sep s = Some i ->
  split_loop sep s = firstn i s :: split_loop sep (skipn (i + length sep) s).
Proof.
  intros Hne H. destruct sep as [|c sep']; [congruence|].
  remember (split_loop (c :: sep') (skipn (i + length (c :: sep')) s)) as r.
  simp split_loop.
  destruct (inspect (find (c :: sep') s)) as [[j|] e]; simpl;
    [|congruence].
  assert (j = i) by congruence. now subst j r.
Qed.

(** [split_loop] never returns the empty list: index 0 always exists. *)
Lemma split_loop_head (sep s : str) :
  exists p rest, split_loop sep s = p :: rest /\
    (find sep s = None -> p = s) /\
    (forall i, sep <> [] -> find sep s = Some i -> p = firstn i s).
Proof.
  destruct (find sep s) as [i|] eqn:E.
  - destruct sep as [|c sep'].
    + simp split_loop. exists s, []. repeat split; congruence.
    + rewrite (split_loop_Some (c :: sep') s i) by congruence.
      eexists _, _. split; [reflexivity|]. split; [congruence|].
      intros j _ Hj. congruence.
  - rewrite split_loop_None by assumption.
    exists s, []. repeat split; congruence.
Qed.

Lemma lstrip_suffix (s : str) : exists a, s = a ++ lstrip s.
Proof.
  induction s as [|c s [a IH]]; simpl; [now exists []|].
  destruct (isspace c); [|now exists []].
  exists (c :: a). simpl. now f_equal.
Qed.

Lemma rstrip_prefix (s : str) : exists b, s = rstrip s ++ b.
Proof.
  unfold rstrip. destruct (lstrip_suffix (rev s)) as [a H].
  exists (rev a). rewrite <- rev_app_distr, <- H. now rewrite rev_involutive.
Qed.

Lemma strip_within (s : str) : exists a b, s = a ++ strip s ++ b.
Proof.
  unfold strip. destruct (lstrip_suffix s) as [a Ha].
  destruct (rstrip_prefix (lstrip s)) as [b Hb].
  exists a, b. now rewrite <- Hb.
Qed.

Lemma find_None_strip (sub s : str) :
  find sub s = None -> find sub (strip s) = None.
Proof.
  rewrite !find_None_occurs. intros H O. apply H.
  destruct (strip_within s) as (a & b & E). rewrite E.
  now apply occurs_within.
Qed.

Lemma lstrip_idem (s : str) : lstrip (lstrip s) = lstrip s.
Proof.
  induction s as [|c s IH]; simpl; [reflexivity|].
  destruct (isspace c) eqn:E; [assumption|]. simpl. now rewrite E.
Qed.

Lemma lstrip_snoc (s : str) (c : char) :
  isspace c = false -> lstrip (s ++ [c]) = lstrip s ++ [c].
Proof.
  intros Hc. induction s as [|d s IH]; simpl; [now rewrite Hc|].
  now destruct (isspace d).
Qed.

Lemma rstrip_cons (c : char) (s : str) :
  isspace c = false -> rstrip (c :: s) = c :: rstrip s.
Proof.
  intros Hc. unfold rstrip. simpl.
  rewrite lstrip_snoc by assumption.
  now rewrite rev_app_distr.
Qed.

Lemma rstrip_idem (s : str) : rstrip (rstrip s) = rstrip s.
Proof.
  unfold rstrip. now rewrite rev_involutive, lstrip_idem.
Qed.

Lemma lstrip_rstrip_lstrip (s : str) :
  lstrip (rstrip (lstrip s)) = rstrip (lstrip s).
Proof.
  induction s as [|c s IH]; simpl; [reflexivity|].
  destruct (isspace c) eqn:E; [assumption|].
  rewrite rstrip_cons by assumption. simpl. now rewrite E.
Qed.

(** [strip] is idempotent. *)
Lemma strip_idem (s : str) : strip (strip s) = strip s.
Proof.
  unfold strip. now rewrite lstrip_rstrip_lstrip, rstrip_idem.
Qed.

Lemma fence_close_eq : fence_close = [96; 96; 96]%N.
Proof. reflexivity. Qed.

Lemma fence_open_eq : fence_open = fence_close ++ pystr "python".
Proof. reflexivity. Qed.

Lemma fence_open_ne : fence_open <> [].
Proof. discriminate. Qed.

Lemma fence_close_ne : fence_close <> [].
Proof. discriminate. Qed.

Lemma split_fence_open (s : str) : split fence_open s = Ok (split_loop fence_open s).
Proof. reflexivity. Qed.

Lemma split_fence_close (s : str) : split fence_close s = Ok (split_loop fence_close s).
Proof. reflexivity. Qed.

(** No opening marker: the first split has one element and index 1 raises. *)
Lemma extract_code_body_no_open (text : str) :
  find fence_open text = None -> extract_code_body text = Raise IndexError.
Proof.
  intros H. unfold extract_code_body.
  rewrite split_fence_open, split_loop_None by assumption. reflexivity.
Qed.

(** With an opening marker, the body returns the stripped first piece of
    what follows the marker (up to the next opening marker). *)
Lemma extract_code_body_open (text : str) (i : nat) :
  find fence_open text = Some i ->
  exists inner,
    extract_code_body text = Ok (strip inner) /\
    find fence_close inner = None /\
    (find fence_close (skipn (i + length fence_open) text) = None ->
     inner = skipn (i + length fence_open) text).
Proof.
  intros H. unfold extract_code_body.
  rewrite split_fence_open, (split_loop_Some _ _ i fence_open_ne H).
  set (rest := skipn (i + length fence_open) text).
  destruct (split_loop_head fence_open rest) as (after & tl & E & HN & HS).
  rewrite E. cbn [rbind index nth_error].
  rewrite split_fence_close.
  destruct (split_loop_head fence_close after) as (inner & tl' & E' & HN' & HS').
  rewrite E'. cbn [rbind index nth_error].
  exists inner. split; [reflexivity|]. split.
  - destruct (find fence_close after) as [j|] eqn:F.
    + rewrite (HS' j fence_close_ne eq_refl).
      now apply find_firstn_None.
    + now rewrite (HN' eq_refl).
  - intros Hc.
    assert (after = rest) as ->.
    { apply HN. rewrite fence_open_eq. now apply find_None_longer. }
    apply HN'. exact Hc.
Qed.

Lemma extract_code_of_body (text : str) (s : str) :
  extract_code_body text = Ok s -> extract_code text = s.
Proof. unfold extract_code. now intros ->. Qed.

(** ** Re-wrapping an extracted snippet in fences *)

Lemma find_cons_None (sub : str) (c : char) (s : str) :
  find sub (c :: s) = None ->
  startswith sub (c :: s) = false /\ find sub s = None.
Proof.
  simpl. destruct (startswith sub (c :: s)); [discriminate|].
  destruct (find sub s); [discriminate|]. auto.
Qed.

Lemma find_cons_skip (sub : str) (c : char) (s : str) :
  startswith sub (c :: s) = false ->
  find sub (c :: s) = option_map S (find sub s).
Proof. simpl. now intros ->. Qed.

(** The closing marker appended to a text that holds none and does not
    end in a backtick is found exactly at the end of that text. *)
Lemma find_close_appended (out : str) :
  find fence_close out = None -> last out 0%N <> 96%N ->
  find fence_close (out ++ fence_close) = Some (length out).
Proof.
  rewrite fence_close_eq.
  induction out as [|a out IH]; intros Hn Hl; [reflexivity|].
  apply find_cons_None in Hn as [Hs Hn].
  assert (Hl' : last out 0%N <> 96%N).
  { destruct out; [discriminate | exact Hl]. }
  simpl app. rewrite find_cons_skip, (IH Hn Hl'); [reflexivity|].
  destruct out as [|b [|b2 out]]; cbn [startswith app last] in *.
  - destruct (N.eqb_spec 96 a); [congruence | reflexivity].
  - destruct (N.eqb_spec 96 a); [|reflexivity].
    destruct (N.eqb_spec 96 b); [congruence | reflexivity].
  - exact Hs.
Qed.

(** A text without the closing marker followed by the closing marker holds
    no opening marker. *)
Lemma find_open_appended (out : str) :
  find fence_close out = None -> find fence_open (out ++ fence_close) = None.
Proof.
  intros Hn. apply find_None_occurs. intros (pre & post & E).
  apply find_None_occurs in Hn. apply Hn.
  rewrite fence_open_eq, <- !app_assoc in E.
  rewrite (app_assoc pre) in E.
  apply app_eq_app in E as [l [[E1 E2]|[E1 E2]]].
  - exists pre, l. now rewrite E1, <- app_assoc.
  - exfalso. apply (f_equal (@length _)) in E2.
    rewrite !length_app in E2.
    change (length fence_close) with 3 in E2.
    change (length (pystr "python")) with 6 in E2. lia.
Qed.

(** What [extract_code] returns for a body wrapped in the two markers. *)
Lemma extract_code_fenced (body : str) :
  find fence_close body = None -> last body 0%N <> 96%N ->
  extract_code (fence_open ++ body ++ fence_close) = strip body.
Proof.
  intros Hn Hl. apply extract_code_of_body. unfold extract_code_body.
  assert (F : find fence_open (fence_open ++ body ++ fence_close) = Some 0).
  { apply find_startswith, startswith_app. }
  rewrite split_fence_open, (split_loop_Some _ _ 0 fence_open_ne F).
  replace (skipn (0 + length fence_open) (fence_open ++ body ++ fence_close))
    with (body ++ fence_close)
    by (now rewrite Nat.add_0_l, skipn_app, skipn_all, Nat.sub_diag).
  rewrite (split_loop_None fence_open) by now apply find_open_appended.
  cbn [rbind index nth_error].
  rewrite split_fence_close,
    (split_loop_Some _ _ (length body) fence_close_ne
       (find_close_appended body Hn Hl)).
  cbn [rbind index nth_error].
  now rewrite firstn_app, firstn_all, Nat.sub_diag, app_nil_r.
Qed.

(** The output of [extract_code] holds no closing marker. *)
Lemma extract_code_no_fence (text : str) :
  find fence_close (extract_code text) = None.
Proof.
  destruct (find fence_open text) as [i|] eqn:F.
  - destruct (extract_code_body_open text i F) as (inner & B & Hc & _).
    rewrite (extract_code_of_body _ _ B). now apply find_None_strip.
  - unfold extract_code. now rewrite extract_code_body_no_open.
Qed.

(** The output of [extract_code] is already stripped. *)
Lemma extract_code_stripped (text : str) :
  strip (extract_code text) = extract_code text.
Proof.
  destruct (find fence_open text) as [i|] eqn:F.
  - destruct (extract_code_body_open text i F) as (inner & B & _).
    rewrite (extract_code_of_body _ _ B). apply strip_idem.
  - unfold extract_code. now rewrite extract_code_body_no_open.
Qed.

Lemma lstrip_head (s : str) (c : char) (r : str) :
  lstrip s = c :: r -> isspace c = false.
Proof.
  induction s as [|d s IH]; simpl; [discriminate|].
  destruct (isspace d) eqn:E; [assumption|]. now intros [= <- _].
Qed.

Lemma stripped_lstrip (t : str) : strip t = t -> lstrip t = t.
Proof.
  intros H. rewrite <- H at 1. unfold strip.
  rewrite lstrip_rstrip_lstrip. exact H.
Qed.

Lemma stripped_rstrip (t : str) : strip t = t -> rstrip t = t.
Proof.
  intros H. rewrite <- (stripped_lstrip t H) at 1. exact H.
Qed.

(** Line breaks around a stripped text are stripped away again. *)
Lemma strip_lines (t : str) :
  strip t = t -> strip ([10%N] ++ t ++ [10%N]) = t.
Proof.
  intros H. unfold strip. simpl app. simpl lstrip.
  destruct t as [|c t'] eqn:Et; [reflexivity|]. rewrite <- Et in *.
  assert (Hc : isspace c = false).
  { apply (lstrip_head t c t'). rewrite stripped_lstrip by assumption.
    exact Et. }
  assert (L : lstrip (t ++ [10%N]) = t ++ [10%N]).
  { rewrite Et. simpl. now rewrite Hc. }
  rewrite L. unfold rstrip. rewrite rev_app_distr. simpl.
  now apply stripped_rstrip.
Qed.

Lemma find_close_lines (out : str) :
  find fence_close out = None ->
  find fence_close ([10%N] ++ out ++ [10%N]) = None.
Proof.
  rewrite fence_close_eq. intros Hn. simpl app.
  rewrite find_cons_skip by reflexivity.
  enough (find [96; 96; 96]%N (out ++ [10%N]) = None) as -> by reflexivity.
  induction out as [|a out IH]; [reflexivity|].
  apply find_cons_None in Hn as [Hs Hn].
  simpl app. rewrite find_cons_skip, (IH Hn); [reflexivity|].
  destruct out as [|b [|b2 out]]; cbn [startswith app] in *.
  - now rewrite andb_false_r.
  - destruct (96 =? a)%N, (96 =? b)%N; reflexivity.
  - exact Hs.
Qed.

(** ** Facts about tables, records and timestamps *)

Lemma isnull_sum_no_rows (df : DataFrame) :
  nrows df = 0 -> well_formed df ->
  filter (fun e => 0 <? snd e) (isnull_sum df) = [].
Proof.
  unfold well_formed, isnull_sum. intros H0 Hwf. rewrite H0 in Hwf.
  induction Hwf as [|col cols Hc _ IH]; [reflexivity|].
  simpl. apply length_zero_iff_nil in Hc. rewrite Hc. simpl. exact IH.
Qed.

Lemma missing_pct_no_rows (df : DataFrame) :
  nrows df = 0 -> well_formed df -> missing_pct df = [].
Proof.
  intros H0 Hwf. unfold missing_pct.
  now rewrite isnull_sum_no_rows.
Qed.

Lemma contains_app (sub pre post : str) :
  contains sub (pre ++ sub ++ post) = true.
Proof. apply contains_occurs. now exists pre, post. Qed.

Lemma missing_heading_split :
  missing_heading = [10; 10]%N ++ pystr "MISSING DATA:" ++ [10]%N.
Proof. reflexivity. Qed.

(** The heading of the missing-data section is part of every prompt. *)
Lemma prompt_has_missing_heading
    (md_rows md_dtypes : DataFrame -> str)
    (md_series : str -> list (str * float) -> str) (df : DataFrame) :
  contains (pystr "MISSING DATA:")
           (generate_llm_prompt md_rows md_dtypes md_series df) = true.
Proof.
  unfold generate_llm_prompt. rewrite missing_heading_split.
  rewrite <- !app_assoc.
  rewrite (app_assoc prompt_intro), (app_assoc (prompt_intro ++ _)),
    (app_assoc ((prompt_intro ++ _) ++ _)), (app_assoc (((prompt_intro ++ _) ++ _) ++ _)).
  apply contains_app.
Qed.

Lemma firstn_seq (k start n : nat) :
  firstn k (seq start n) = seq start (Nat.min k n).
Proof.
  revert start n; induction k as [|k IH]; intros start [|n]; simpl;
    try reflexivity.
  now rewrite IH.
Qed.

Lemma row_record_head (n i : nat) (df : DataFrame) :
  i < n -> row_record (head n df) i = row_record df i.
Proof.
  intros Hi. unfold row_record, head. simpl.
  generalize (@nil (str * cell)).
  induction (columns df) as [|col cols IH]; intros acc; simpl; [reflexivity|].
  rewrite IH, nth_firstn.
  apply Nat.ltb_lt in Hi. now rewrite Hi.
Qed.

(** The records of the first [n] rows are the first [n] records. *)
Lemma to_dict_records_head (n : nat) (df : DataFrame) :
  to_dict_records (head n df) = firstn n (to_dict_records df).
Proof.
  unfold to_dict_records. rewrite firstn_map, firstn_seq.
  apply map_ext_in. intros i Hi. apply in_seq in Hi.
  apply row_record_head. simpl in Hi. lia.
Qed.

Lemma to_dict_records_length (df : DataFrame) :
  length (to_dict_records df) = nrows df.
Proof. unfold to_dict_records. now rewrite length_map, length_seq. Qed.

Lemma isdigit_digit (n : Z) : isdigit (digit n) = true.
Proof.
  unfold isdigit, digit.
  pose proof (Z.mod_pos_bound n 10 eq_refl) as H.
  apply andb_true_intro; split; apply N.leb_le; lia.
Qed.

Lemma decimal_digits_small (fuel : nat) (n : Z) :
  (n < 10)%Z -> decimal_digits (S fuel) n = [digit n].
Proof.
  intros H. simpl. apply Z.ltb_lt in H. now rewrite H.
Qed.

Lemma decimal_digits_step (fuel : nat) (n : Z) :
  (10 <= n)%Z ->
  decimal_digits (S fuel) n = decimal_digits fuel (n / 10) ++ [digit n].
Proof.
  intros H. simpl. apply Z.ltb_ge in H. now rewrite H.
Qed.

(** [%m], [%d], [%H], [%M], [%S]: two digits. *)
Lemma pad2_digits (n : Z) :
  (0 <= n <= 99)%Z -> pad2 n = [digit (n / 10); digit n].
Proof.
  intros H. unfold pad2, decimal.
  destruct (Z.ltb_spec n 10) as [L|L].
  - rewrite decimal_digits_small by assumption.
    rewrite Z.div_small by lia. reflexivity.
  - destruct (Z.to_nat n) as [|f] eqn:E; [lia|].
    rewrite decimal_digits_step by assumption.
    rewrite decimal_digits_small; [reflexivity|].
    apply Z.div_lt_upper_bound; lia.
Qed.

(** [%Y] for a four-digit year. *)
Lemma decimal_year (y : Z) :
  (1000 <= y <= 9999)%Z ->
  decimal y = [digit (y / 1000); digit (y / 100); digit (y / 10); digit y].
Proof.
  intros H. unfold decimal.
  destruct (Z.to_nat y) as [|[|[|f]]] eqn:E; try lia.
  rewrite decimal_digits_step by lia.
  rewrite decimal_digits_step by (apply Z.div_le_lower_bound; lia).
  rewrite decimal_digits_step
    by (repeat (apply Z.div_le_lower_bound; [lia|]); lia).
  rewrite decimal_digits_small
    by (repeat (apply Z.div_lt_upper_bound; [lia|]); lia).
  rewrite !Z.div_div by lia. reflexivity.
Qed.

Lemma strftime_timestamp (t : struct_time) :
  valid_time t ->
  strftime timestamp_format t =
  [digit (tm_year t / 1000); digit (tm_year t / 100); digit (tm_year t / 10);
   digit (tm_year t); 45%N;
   digit (tm_mon t / 10); digit (tm_mon t); 45%N;
   digit (tm_mday t / 10); digit (tm_mday t); 32%N;
   digit (tm_hour t / 10); digit (tm_hour t); 58%N;
   digit (tm_min t / 10); digit (tm_min t); 58%N;
   digit (tm_sec t / 10); digit (tm_sec t)].
Proof.
  intros (Hy & Hm & Hd & Hh & Hn & Hs).
  change (strftime timestamp_format t) with
    (decimal (tm_year t) ++ 45%N :: pad2 (tm_mon t) ++ 45%N :: pad2 (tm_mday t)
       ++ 32%N :: pad2 (tm_hour t) ++ 58%N :: pad2 (tm_min t)
       ++ 58%N :: pad2 (tm_sec t) ++ []).
  rewrite decimal_year by assumption.
  rewrite !pad2_digits by lia. reflexivity.
Qed.

Lemma strftime_timestamp_shape (t : struct_time) :
  valid_time t -> timestamp_shape (strftime timestamp_format t) = true.
Proof.
  intros H. rewrite strftime_timestamp by assumption.
  unfold timestamp_shape. cbn [forallb].
  rewrite !isdigit_digit. reflexivity.
Qed.

Lemma str_eqb_eq (a b : str) : str_eqb a b = true <-> a = b.
Proof.
  revert b; induction a as [|x a IH]; intros [|y b]; simpl;
    try (split; [discriminate | congruence]); [tauto|].
  rewrite andb_true_iff, N.eqb_eq, IH. split.
  - now intros [-> ->].
  - now intros [= -> ->].
Qed.

Lemma dict_set_fresh {V} (k : str) (v : V) (d : dict V) :
  ~ In k (map fst d) -> dict_set k v d = d ++ [(k, v)].
Proof.
  induction d as [|[k' v'] d IH]; simpl; [reflexivity|]. intros H.
  destruct (str_eqb k k') eqn:E.
  - apply str_eqb_eq in E. exfalso. apply H. now left.
  - rewrite IH; [reflexivity|]. intros H'. apply H. now right.
Qed.

(** With distinct column names, a row record lists the columns in order. *)
Lemma row_record_distinct (df : DataFrame) (i : nat) :
  NoDup (map fst (columns df)) ->
  row_record df i = map (fun col => (fst col, nth i (snd col) VNone)) (columns df).
Proof.
  unfold row_record.
  enough (G : forall cols acc,
             NoDup (map fst acc ++ map fst cols) ->
             fold_left (fun d col => dict_set (fst col) (nth i (snd col) VNone) d)
                       cols acc
             = acc ++ map (fun col => (fst col, nth i (snd col) VNone)) cols).
  { intros H. now apply (G (columns df) []). }
  induction cols as [|col cols IH]; intros acc H; simpl.
  - now rewrite app_nil_r.
  - simpl in H. rewrite dict_set_fresh.
    + rewrite IH.
      * now rewrite <- app_assoc.
      * rewrite map_app. simpl. rewrite <- app_assoc. exact H.
    + apply NoDup_remove_2 in H. intros Hin. apply H.
      apply in_or_app. now left.
Qed.

Lemma nth_error_seq (start k i : nat) :
  i < k -> nth_error (seq start k) i = Some (start + i).
Proof.
  revert start i; induction k as [|k IH]; intros start [|i] H; simpl;
    try lia.
  - now rewrite Nat.add_0_r.
  - rewrite IH by lia. f_equal. lia.
Qed.

(** Filling with a number leaves no missing cell. *)
Lemma fillna_no_null (value : float) (col : list cell) :
  PrimFloat.is_nan value = false -> filter isnull (fillna value col) = [].
Proof.
  intros Hv. induction col as [|c col IH]; simpl; [reflexivity|].
  destruct (isnull c) eqn:E; simpl.
  - now rewrite Hv.
  - now rewrite E.
Qed.

(** ** Sample evaluations *)

Example extract_code_ex1 :
  extract_code (pystr "RATIONALE: x ```python
df = df.dropna()
``` done") = pystr "df = df.dropna()".
Proof. vm_compute. reflexivity. Qed.

Example extract_code_ex2 : extract_code (pystr "no code here") = [].
Proof. vm_compute. reflexivity. Qed.

Example extract_report_ex1 :
  extract_report (pystr "1. RATIONALE: drop nulls
```python
df.dropna(inplace=True)
```") = Ok (pystr "1. RATIONALE: drop nulls").
Proof. vm_compute. reflexivity. Qed.

Example rint_ties_to_even :
  rint 2.5 = 2%float /\ rint 3.5 = 4%float /\ rint 0.4 = 0%float /\
  rint (-1.5) = (-2)%float /\ rint 3333.3333333333335 = 3333%float.
Proof. repeat split; vm_compute; reflexivity. Qed.

Example round2_third :
  round2 (float_of_nat 1 / float_of_nat 3 * 100)%float = 33.33%float.
Proof. vm_compute. reflexivity. Qed.

Example strftime_noon :
  strftime timestamp_format noon = pystr "2024-05-17 12:00:09".
Proof. vm_compute. reflexivity. Qed.

Example to_dict_records_sample :
  to_dict_records people_sample =
  [ [ (pystr "id", VInt 1); (pystr "name", VStr (pystr "Ann")) ];
    [ (pystr "id", VInt 2); (pystr "name", VStr (pystr "Bob")) ] ].
Proof. vm_compute. reflexivity. Qed.

Example prompt_literals :
  dtypes_heading = [10; 10]%N ++ pystr "DTYPES:" ++ [10]%N /\
  firstn 9 prompt_intro = [10]%N ++ pystr "You are " /\
  skipn (length prompt_intro - 16) prompt_intro
  = [10; 10]%N ++ pystr "DATA SUMMARY:" ++ [10]%N.
Proof. repeat split. Qed.

Example exn_str_samples :
  exn_str IndexError = pystr "list index out of range" /\
  exn_str ValueError = pystr "empty separator" /\
  exn_str (Exception_ (pystr "Read timed out.")) = pystr "Read timed out." /\
  exn_str (BaseException_ (pystr "1")) = pystr "1" /\
  exn_str StopException = [] /\
  exn_str (KeyError (pystr "df_clean")) = pystr "'df_clean'" /\
  exn_str (KeyError (pystr "owner's age")) = [34]%N ++ pystr "owner's age" ++ [34]%N /\
  exn_str (KeyError (pystr "a\b")) = pystr "'a\\b'".
Proof. repeat split. Qed.

Example py_repr_samples :
  py_repr (pystr "age") = pystr "'age'" /\
  py_repr (pystr "it's") = [34]%N ++ pystr "it's" ++ [34]%N /\
  py_repr [97; 39; 34; 98]%N = pystr "'a\'" ++ [34]%N ++ pystr "b'" /\
  py_repr (pystr "a\b") = pystr "'a\\b'" /\
  py_repr [97; 10; 9; 13; 98]%N = pystr "'a\n\t\rb'" /\
  py_repr [0; 31; 127; 160; 173]%N = pystr "'\x00\x1f\x7f\xa0\xad'" /\
  py_repr [233; 161; 955]%N = [39; 233; 161; 955; 39]%N.
Proof. repeat split. Qed.

Example Series_mean_samples :
  Series_mean [VFloat 30; VFloat PrimFloat.nan; VFloat 41] = Ok 35.5%float /\
  Series_mean [VStr (pystr "Ann"); VStr (pystr "Bob")]
  = Raise (Exception_ (pystr "Cannot perform reduction 'mean' with string dtype")).
Proof. split; vm_compute; reflexivity. Qed.

Example json_compliant_samples :
  json_compliant (webhook_payload noon people_sample) = true /\
  json_compliant (webhook_payload noon people) = false /\
  json_float PrimFloat.infinity = false /\
  json_float PrimFloat.neg_infinity = false /\
  json_float 35.5 = true.
Proof. repeat split. Qed.

Example no_statement_samples :
  no_statement [] = true /\
  no_statement (pystr "# nothing to clean") = true /\
  no_statement (pystr "
   # a comment

") = true /\
  no_statement (pystr "df = df.dropna()") = false /\
  no_statement (pystr "# drop
df = df.dropna()") = false.
Proof. repeat split. Qed.

(** ** Response parser: the specification's statements *)

(** With the header present, the report is the text before the first
    opening marker, stripped. *)
Lemma extract_report_header_open (text : str) (i : nat) :
  contains rationale_header text = true ->
  find fence_open text = Some i ->
  extract_report text = Ok (strip (firstn i text)).
Proof.
  intros H Ho. unfold extract_report. rewrite H.
  rewrite split_fence_open, (split_loop_Some _ _ i fence_open_ne Ho).
  reflexivity.
Qed.

(** C1, as stated, fails: the opening marker is present, no closing marker
    follows it, and [extract_code] returns the rest of the text, not the
    empty string. *)
Lemma extract_code_unclosed_fence :
  find fence_open unclosed_reply = Some 22 /\
  find fence_close (skipn (22 + length fence_open) unclosed_reply) = None /\
  extract_code unclosed_reply = pystr "df = df.dropna()" /\
  extract_code unclosed_reply <> [].
Proof. repeat split; try reflexivity. discriminate. Qed.

(** C1, amended: without the opening marker [extract_code] returns the
    empty string (the [IndexError] of index 1 is swallowed); this covers
    every text without the closing marker, which the opening marker
    starts with. When the opening marker is present and no closing marker
    follows its first occurrence, [extract_code] returns the rest of the
    text, stripped. *)
Theorem extract_code_missing_marker :
  (forall text, contains fence_open text = false ->
     extract_code_body text = Raise IndexError /\ extract_code text = []) /\
  (forall text, contains fence_close text = false -> extract_code text = []) /\
  (forall text i, find fence_open text = Some i ->
     find fence_close (skipn (i + length fence_open) text) = None ->
     extract_code text = strip (skipn (i + length fence_open) text)).
Proof.
  assert (A : forall text, contains fence_open text = false ->
     extract_code_body text = Raise IndexError /\ extract_code text = []).
  { intros text H. apply contains_false_find in H.
    pose proof (extract_code_body_no_open text H) as B.
    split; [exact B|]. unfold extract_code. now rewrite B. }
  split; [exact A|]. split.
  - intros text H. apply A. apply contains_false_find.
    apply contains_false_find in H.
    rewrite fence_open_eq. now apply find_None_longer.
  - intros text i Ho Hc.
    destruct (extract_code_body_open text i Ho) as (inner & B & _ & E).
    rewrite (extract_code_of_body _ _ B). now rewrite (E Hc).
Qed.

Lemma extract_code_missing_marker_witness :
  extract_code (pystr "The data is already clean.") = [] /\
  extract_code unclosed_reply = strip (skipn (22 + length fence_open) unclosed_reply).
Proof.
  split.
  - apply (proj1 extract_code_missing_marker). reflexivity.
  - apply (proj2 (proj2 extract_code_missing_marker)); reflexivity.
Defined.

(** C2, as stated, fails: a text without the opening marker that holds the
    rationale header is returned whole (stripped), not replaced by the
    fallback string. *)
Lemma extract_report_header_without_fence :
  contains fence_open report_only_reply = false /\
  extract_report report_only_reply = Ok report_only_reply /\
  report_only_reply <> fallback_report.
Proof. repeat split; try reflexivity. discriminate. Qed.

(** C2, amended: [extract_report] returns the fallback string whenever
    the rationale header is absent, whether or not the text has an opening
    marker; when the header is present it returns the text before the first
    opening marker, stripped, which is the whole text when there is no
    opening marker. *)
Theorem extract_report_cases :
  (forall text, contains rationale_header text = false ->
     extract_report text = Ok fallback_report) /\
  (forall text i, contains rationale_header text = true ->
     find fence_open text = Some i ->
     extract_report text = Ok (strip (firstn i text))) /\
  (forall text, contains rationale_header text = true ->
     contains fence_open text = false ->
     extract_report text = Ok (strip text)).
Proof.
  split; [|split].
  - intros text H. unfold extract_report. now rewrite H.
  - exact extract_report_header_open.
  - intros text H Ho. apply contains_false_find in Ho.
    unfold extract_report. rewrite H.
    rewrite split_fence_open, split_loop_None by assumption. reflexivity.
Qed.

Lemma extract_report_cases_witness :
  extract_report (pystr "Nothing to report.") = Ok fallback_report /\
  extract_report unclosed_reply = Ok (strip (firstn 22 unclosed_reply)) /\
  extract_report report_only_reply = Ok (strip report_only_reply).
Proof.
  split; [|split].
  - apply (proj1 extract_report_cases). reflexivity.
  - apply (proj1 (proj2 extract_report_cases)); reflexivity.
  - apply (proj2 (proj2 extract_report_cases)); reflexivity.
Defined.

(** C10: both parser operations return a string for every input.
    [extract_code]: the only exception its body can raise is the
    [IndexError] of index 1, and it is mapped to the empty string.
    [extract_report] never raises; when the text starts with the opening
    marker and holds the rationale header further on, it returns the empty
    string, not the fallback. *)
Theorem parser_total :
  (forall text,
     (extract_code_body text = Raise IndexError /\ extract_code text = []) \/
     (exists s, extract_code_body text = Ok s /\ extract_code text = s)) /\
  (forall text e, extract_code_body text = Raise e -> extract_code text = []) /\
  (forall text, exists s, extract_report text = Ok s) /\
  (forall text, startswith fence_open text = true ->
     contains rationale_header text = true ->
     extract_report text = Ok [] /\ Ok [] <> Ok fallback_report).
Proof.
  split; [|split; [|split]].
  - intros text. destruct (find fence_open text) as [i|] eqn:F.
    + right. destruct (extract_code_body_open text i F) as (inner & B & _).
      exists (strip inner). split; [exact B|]. now apply extract_code_of_body.
    + left. pose proof (extract_code_body_no_open text F) as B.
      split; [exact B|]. unfold extract_code. now rewrite B.
  - intros text e H. unfold extract_code. now rewrite H.
  - intros text. unfold extract_report.
    destruct (contains rationale_header text); [|now eexists].
    rewrite split_fence_open.
    destruct (split_loop_head fence_open text) as (p & tl & E & _).
    rewrite E. now eexists.
  - intros text Hs Hh. split; [|discriminate].
    assert (F : find fence_open text = Some 0).
    { now apply find_startswith. }
    rewrite (extract_report_header_open text 0 Hh F). reflexivity.
Qed.

Lemma parser_total_witness :
  extract_report (pystr "```python
df = df.dropna()
```
RATIONALE: rows with nulls are dropped.") = Ok [].
Proof.
  apply (proj2 (proj2 (proj2 parser_total))); reflexivity.
Defined.

(** C6, as stated, fails: the output ends in a backtick, which joins the
    closing marker appended to it, so the second extraction loses it. *)
Lemma extract_code_rewrap_backtick :
  extract_code backtick_reply = pystr "df = df.dropna()  # cleans `df`" /\
  extract_code (fence_open ++ extract_code backtick_reply ++ fence_close)
    = pystr "df = df.dropna()  # cleans `df" /\
  extract_code (fence_open ++ extract_code backtick_reply ++ fence_close)
    <> extract_code backtick_reply.
Proof. repeat split; try reflexivity. discriminate. Qed.

(** C6, amended: wrapping the output of [extract_code] in the two markers
    and extracting again returns that output whenever it does not end in a
    backtick (code point 96), and always when the output is put on lines of
    its own between the markers. *)
Theorem extract_code_rewrap :
  (forall text, last (extract_code text) 0%N <> 96%N ->
     extract_code (fence_open ++ extract_code text ++ fence_close)
     = extract_code text) /\
  (forall text,
     extract_code
       (fence_open ++ ([10%N] ++ extract_code text ++ [10%N]) ++ fence_close)
     = extract_code text).
Proof.
  split; intros text.
  - intros Hl. rewrite extract_code_fenced.
    + apply extract_code_stripped.
    + apply extract_code_no_fence.
    + exact Hl.
  - rewrite extract_code_fenced.
    + apply strip_lines, extract_code_stripped.
    + apply find_close_lines, extract_code_no_fence.
    + rewrite app_assoc, last_last. discriminate.
Qed.

Lemma extract_code_rewrap_witness :
  extract_code (fence_open ++ extract_code unclosed_reply ++ fence_close)
  = extract_code unclosed_reply.
Proof.
  apply (proj1 extract_code_rewrap). vm_compute. discriminate.
Defined.

(** ** Summary builder: the specification's statements *)

(** C4, as stated, fails: for a table with no row the prompt still holds
    the missing-data section, whatever the markdown renderer returns; only
    its table of percentages is empty. *)
Lemma prompt_keeps_missing_section :
  nrows empty_table = 0 /\
  well_formed empty_table /\
  (forall md_rows md_dtypes md_series,
     contains (pystr "MISSING DATA:")
       (generate_llm_prompt md_rows md_dtypes md_series empty_table) = true).
Proof.
  split; [reflexivity|]. split.
  - repeat constructor.
  - intros. apply prompt_has_missing_heading.
Qed.

(** C4, amended: for every table with no row, [generate_llm_prompt]
    computes no missing percentage (the series is empty, so nothing is
    divided by the row count) and returns a prompt; the prompt keeps its
    MISSING DATA heading, followed by the rendering of the empty series. *)
Theorem generate_llm_prompt_no_rows
    (md_rows md_dtypes : DataFrame -> str)
    (md_series : str -> list (str * float) -> str) (df : DataFrame) :
  nrows df = 0 -> well_formed df ->
  missing_pct df = [] /\
  generate_llm_prompt md_rows md_dtypes md_series df =
    prompt_intro ++ md_rows (head 5 df)
      ++ dtypes_heading ++ md_dtypes df
      ++ missing_heading ++ md_series (pystr "Missing_Percentage") []
      ++ [10%N] /\
  contains (pystr "MISSING DATA:")
    (generate_llm_prompt md_rows md_dtypes md_series df) = true.
Proof.
  intros H0 Hwf. split; [now apply missing_pct_no_rows|]. split.
  - unfold generate_llm_prompt. now rewrite missing_pct_no_rows.
  - apply prompt_has_missing_heading.
Qed.

Lemma generate_llm_prompt_no_rows_witness :
  missing_pct empty_table = [] /\
  generate_llm_prompt (fun _ => []) (fun _ => []) (fun _ _ => []) empty_table =
    prompt_intro ++ dtypes_heading ++ missing_heading ++ [10%N] /\
  contains (pystr "MISSING DATA:")
    (generate_llm_prompt (fun _ => []) (fun _ => []) (fun _ _ => []) empty_table)
  = true.
Proof.
  apply (generate_llm_prompt_no_rows
           (fun _ => []) (fun _ => []) (fun _ _ => []) empty_table).
  - reflexivity.
  - repeat constructor.
Defined.

(** ** Delivery notifier: the specification's statements *)

(** [send_to_webhook], case by case on what the network answers. *)
Lemma send_to_webhook_run (post : request -> result Z) (localtime : struct_time)
    (dataframe : DataFrame) (webhook_url : str) (w : world) :
  send_to_webhook post localtime dataframe webhook_url w =
  let r := webhook_request localtime dataframe webhook_url in
  match post r with
  | Ok status_code => (Ok (status_code =? 200)%Z, with_post_call r w)
  | Raise e =>
      if is_Exception e
      then (Ok false,
            with_log ERROR (pystr "Webhook error: " ++ exn_str e) (with_post_call r w))
      else (Raise e, with_post_call r w)
  end.
Proof.
  unfold send_to_webhook, try_except, bind, requests_post, webhook_request.
  cbn zeta. destruct (post _) as [status_code|e]; [reflexivity|].
  destruct (is_Exception e); reflexivity.
Qed.

(** C3, as stated, fails: an endpoint that answers 204 (No Content), a
    status of the 2xx class, makes [send_to_webhook] return [False]. *)
Lemma send_to_webhook_204 :
  is_2xx 204 = true /\
  fst (send_to_webhook (fun _ => Ok 204%Z) noon empty_table hook_url blank_world)
  = Ok false.
Proof. split; reflexivity. Qed.

(** C3, amended: [send_to_webhook] returns [True] exactly when the status
    code is 200; any other status (500, and the other 2xx codes as well)
    gives [False]; an exception of the [Exception] hierarchy raised by the
    POST (connection failure, timeout) is logged and gives [False]; and
    there is no retry: whatever the call answers, [requests.post] was
    called once. *)
Theorem send_to_webhook_result (post : request -> result Z)
    (localtime : struct_time) (dataframe : DataFrame) (webhook_url : str)
    (w : world) :
  let r := webhook_request localtime dataframe webhook_url in
  let out := send_to_webhook post localtime dataframe webhook_url w in
  (forall status_code, post r = Ok status_code ->
     fst out = Ok (status_code =? 200)%Z /\
     (fst out = Ok true <-> status_code = 200%Z) /\
     logs (snd out) = logs w) /\
  (forall e, post r = Raise e -> is_Exception e = true ->
     fst out = Ok false /\
     logs (snd out) = logs w ++ [(ERROR, pystr "Webhook error: " ++ exn_str e)]) /\
  post_calls (snd out) = post_calls w ++ [r].
Proof.
  cbn zeta. rewrite send_to_webhook_run. cbn zeta.
  split; [|split].
  - intros status_code ->. cbn. split; [reflexivity|]. split; [|reflexivity].
    split.
    + intros [= H]. now apply Z.eqb_eq.
    + intros ->. reflexivity.
  - intros e -> ->. split; reflexivity.
  - destruct (post _) as [s|e]; [reflexivity|].
    destruct (is_Exception e); reflexivity.
Qed.

Lemma send_to_webhook_result_witness :
  fst (send_to_webhook (fun _ => Ok 500%Z) noon empty_table hook_url blank_world)
  = Ok false /\
  fst (send_to_webhook (fun _ => Raise (Exception_ (pystr "Read timed out.")))
         noon empty_table hook_url blank_world)
  = Ok false.
Proof.
  split.
  - pose proof (send_to_webhook_result (fun _ => Ok 500%Z) noon empty_table
                  hook_url blank_world) as H.
    cbn zeta in H. destruct H as (H & _ & _).
    destruct (H 500%Z eq_refl) as (E & _). exact E.
  - pose proof (send_to_webhook_result
                  (fun _ => Raise (Exception_ (pystr "Read timed out.")))
                  noon empty_table hook_url blank_world) as H.
    cbn zeta in H. destruct H as (_ & H & _).
    destruct (H _ eq_refl eq_refl) as (E & _). exact E.
Defined.

(** C8, as stated, fails on the scenario table of the specification: its
    missing age is NaN, which [requests.post] refuses to encode, so
    nothing is posted, whatever the endpoint would have answered;
    [send_to_webhook] logs the refusal and returns [False]. *)
Lemma send_to_webhook_nan_refused :
  json_compliant (webhook_payload noon people) = false /\
  forall (refusal : request -> str) (transport : request -> result Z),
    send_to_webhook (requests_library refusal transport) noon people hook_url
      blank_world
    = (Ok false,
       with_log ERROR
         (pystr "Webhook error: " ++ refusal (webhook_request noon people hook_url))
         (with_post_call (webhook_request noon people hook_url) blank_world)).
Proof.
  split; [reflexivity|].
  intros refusal transport. reflexivity.
Qed.

(** C8, amended: [send_to_webhook] calls [requests.post] with the given
    URL, a timeout of 10 and an envelope of exactly three entries: the
    fixed source string, the clock reading formatted as
    [YYYY-MM-DD HH:MM:SS], and the row records of the first 100 rows at
    most; with distinct column names, the record of a row pairs every
    column name with the cell of that row. The library posts the envelope
    only when no record holds a NaN or an infinite float: the endpoint's
    answer then decides the result; otherwise the result is [False]
    whatever the endpoint. *)
Theorem send_to_webhook_envelope (post : request -> result Z)
    (localtime : struct_time) (dataframe : DataFrame) (webhook_url : str)
    (w : world) :
  valid_time localtime ->
  exists timestamp data,
    let envelope :=
      {| req_url := webhook_url;
         req_json := [ (pystr "source", PStr (pystr "Smart Data Profiler App"));
                       (pystr "timestamp", PStr timestamp);
                       (pystr "data", PRecords data) ];
         req_timeout := 10 |} in
    post_calls (snd (send_to_webhook post localtime dataframe webhook_url w))
    = post_calls w ++ [envelope] /\
    timestamp = strftime (pystr "%Y-%m-%d %H:%M:%S") localtime /\
    timestamp_shape timestamp = true /\
    data = firstn 100 (to_dict_records dataframe) /\
    length data = Nat.min 100 (nrows dataframe) /\
    length data <= 100 /\
    (NoDup (map fst (columns dataframe)) ->
     forall i, i < length data ->
       nth_error data i =
       Some (map (fun col => (fst col, nth i (snd col) VNone))
                 (columns dataframe))) /\
    json_compliant (req_json envelope) = forallb json_record data /\
    (forall (refusal : request -> str) (transport : request -> result Z),
       send_to_webhook (requests_library refusal transport) localtime dataframe
         webhook_url w
       = if forallb json_record data then
           match transport envelope with
           | Ok status_code =>
               (Ok (status_code =? 200)%Z, with_post_call envelope w)
           | Raise e =>
               if is_Exception e
               then (Ok false,
                     with_log ERROR (pystr "Webhook error: " ++ exn_str e)
                       (with_post_call envelope w))
               else (Raise e, with_post_call envelope w)
           end
         else (Ok false,
               with_log ERROR (pystr "Webhook error: " ++ refusal envelope)
                 (with_post_call envelope w))).
Proof.
  intros Ht.
  exists (strftime timestamp_format localtime),
         (to_dict_records (head 100 dataframe)).
  cbn zeta.
  split; [|split; [|split; [|split; [|split; [|split; [|split; [|split]]]]]]].
  - rewrite send_to_webhook_run. cbn zeta.
    destruct (post _) as [s|e]; [reflexivity|].
    destruct (is_Exception e); reflexivity.
  - reflexivity.
  - now apply strftime_timestamp_shape.
  - apply to_dict_records_head.
  - rewrite to_dict_records_length. reflexivity.
  - rewrite to_dict_records_length. apply Nat.le_min_l.
  - intros Hnd i Hi. rewrite to_dict_records_length in Hi.
    unfold to_dict_records. rewrite nth_error_map, nth_error_seq by exact Hi.
    cbn [option_map Nat.add]. f_equal.
    rewrite row_record_head.
    + now apply row_record_distinct.
    + change (nrows (head 100 dataframe))
        with (Nat.min 100 (nrows dataframe)) in Hi.
      pose proof (Nat.le_min_l 100 (nrows dataframe)). lia.
  - unfold json_compliant. cbn [forallb snd json_value req_json andb].
    now rewrite andb_true_r.
  - intros refusal transport.
    rewrite send_to_webhook_run. cbn zeta.
    unfold requests_library, webhook_request, webhook_payload, json_compliant.
    cbn [forallb snd json_value req_json andb]. rewrite andb_true_r.
    destruct (forallb json_record _); reflexivity.
Qed.

Lemma send_to_webhook_envelope_witness :
  exists timestamp data,
    post_calls (snd (send_to_webhook (fun _ => Ok 200%Z) noon people_sample hook_url
                 blank_world))
    = [] ++ [ {| req_url := hook_url;
                 req_json := [ (pystr "source", PStr (pystr "Smart Data Profiler App"));
                               (pystr "timestamp", PStr timestamp);
                               (pystr "data", PRecords data) ];
                 req_timeout := 10 |} ] /\
    timestamp = pystr "2024-05-17 12:00:09" /\
    nth_error data 1 = Some [ (pystr "id", VInt 2); (pystr "name", VStr (pystr "Bob")) ] /\
    forallb json_record data = true.
Proof.
  destruct (send_to_webhook_envelope (fun _ => Ok 200%Z) noon people_sample
              hook_url blank_world)
    as (timestamp & data & H1 & H2 & _ & H4 & _).
  - unfold valid_time, noon. cbn. lia.
  - exists timestamp, data. split; [exact H1|]. split; [|split].
    + rewrite H2. reflexivity.
    + rewrite H4. reflexivity.
    + rewrite H4. reflexivity.
Defined.

(** ** Analysis step: the specification's statements *)

Lemma extract_report_total (text : str) : exists s, extract_report text = Ok s.
Proof.
  unfold extract_report.
  destruct (contains rationale_header text); [|now eexists].
  rewrite split_fence_open.
  destruct (split_loop_head fence_open text) as (p & tl & E & _).
  rewrite E. now eexists.
Qed.

Section AnalysisStep.

Variable generate_content : str -> str -> result (option str).
Variable py_exec : str -> DataFrame -> result DataFrame.
Variable md_rows : DataFrame -> str.
Variable md_dtypes : DataFrame -> str.
Variable md_series : str -> list (str * float) -> str.

(** The step on a non-empty reply of the service, case by case on what
    the interpreter does with the extracted snippet. *)
Lemma analyze_click_run (w : world) (df : DataFrame) (text report : str) :
  ss_df_original (session w) = Some df ->
  generate_content model_name
    (generate_llm_prompt md_rows md_dtypes md_series df) = Ok (Some text) ->
  text <> [] ->
  extract_report text = Ok report ->
  analyze_click generate_content py_exec md_rows md_dtypes md_series w =
  match py_exec (extract_code text) (copy df) with
  | Ok df' =>
      (Ok tt,
       {| session := {| ss_df_original := Some df;
                        ss_df_clean := Some df';
                        ss_report_text := Some report;
                        ss_cleaning_code := Some (extract_code text) |};
          logs := logs w ++ [(INFO, start_message);
                             (INFO, pystr "Pipeline successful.")];
          screen := screen w;
          post_calls := post_calls w |})
  | Raise e =>
      if is_Exception e then
        (Ok tt,
         {| session := session w;
            logs := logs w ++ [(INFO, start_message); (ERROR, failure_log e)];
            screen := screen w ++ [StError (failure_banner e)];
            post_calls := post_calls w |})
      else
        (Raise e,
         {| session := session w;
            logs := logs w ++ [(INFO, start_message)];
            screen := screen w;
            post_calls := post_calls w |})
  end.
Proof.
  intros Hs Hg Hne Hr. unfold model_name in Hg.
  unfold analyze_click, bind, try_except, get_df_original, logger, lift, exec.
  cbn [session logs screen post_calls]. rewrite Hs. cbn zeta. rewrite Hg.
  destruct text as [|c t]; [congruence|].
  unfold ret. rewrite Hr. cbn [session]. rewrite Hs.
  destruct (py_exec _ _) as [df'|e].
  - cbn. rewrite Hs, <- app_assoc. reflexivity.
  - destruct (is_Exception e) eqn:E; cbn; rewrite E.
    + cbn. rewrite <- app_assoc. reflexivity.
    + reflexivity.
Qed.

(** C5, as stated, fails: a snippet that raises an exception outside the
    [Exception] hierarchy, here [SystemExit], is not handled. The
    exception leaves the step: no failure is logged or shown. *)
Lemma analyze_click_system_exit :
  extract_code exit_reply = pystr "raise SystemExit" /\
  analyze_click (fun _ _ => Ok (Some exit_reply)) exiting_interpreter
    no_markdown_rows no_markdown_rows no_markdown_series (uploaded people)
  = (Raise (BaseException_ []),
     {| session := session (uploaded people);
        logs := [(INFO, pystr "Starting AI Analysis Pipeline...")];
        screen := [];
        post_calls := [] |}).
Proof. split; reflexivity. Qed.

(** C5, amended: when running the extracted snippet raises, the step
    writes no session key, whatever the exception. An exception of the
    [Exception] hierarchy is handled: the step ends normally, with the
    exception's message, [str(e)], after "Pipeline failure: " in the log
    and after "AI Processing Error: " on the page; for an exception that
    carries the message [msg], that is [msg] itself. Any other exception
    leaves the step, with nothing logged or shown about it. *)
Theorem analyze_click_snippet_raises (w : world) (df : DataFrame)
    (text : str) (e : exn) :
  ss_df_original (session w) = Some df ->
  generate_content model_name
    (generate_llm_prompt md_rows md_dtypes md_series df) = Ok (Some text) ->
  text <> [] ->
  py_exec (extract_code text) (copy df) = Raise e ->
  let out := analyze_click generate_content py_exec md_rows md_dtypes md_series w in
  session (snd out) = session w /\
  (is_Exception e = true ->
   out =
   (Ok tt,
    {| session := session w;
       logs := logs w ++ [(INFO, start_message);
                          (ERROR, pystr "Pipeline failure: " ++ exn_str e)];
       screen := screen w ++
                 [StError ([10060; 32]%N ++ pystr "AI Processing Error: "
                             ++ exn_str e)];
       post_calls := post_calls w |})) /\
  (forall msg, e = Exception_ msg ->
   out =
   (Ok tt,
    {| session := session w;
       logs := logs w ++ [(INFO, start_message);
                          (ERROR, pystr "Pipeline failure: " ++ msg)];
       screen := screen w ++
                 [StError ([10060; 32]%N ++ pystr "AI Processing Error: " ++ msg)];
       post_calls := post_calls w |})) /\
  (is_Exception e = false ->
   out =
   (Raise e,
    {| session := session w;
       logs := logs w ++ [(INFO, start_message)];
       screen := screen w;
       post_calls := post_calls w |})).
Proof.
  intros Hs Hg Hne He. cbn zeta.
  destruct (extract_report_total text) as [report Hr].
  rewrite (analyze_click_run w df text report Hs Hg Hne Hr), He.
  split; [|split; [|split]].
  - destruct (is_Exception e); reflexivity.
  - intros ->. reflexivity.
  - intros msg ->. reflexivity.
  - intros ->. reflexivity.
Qed.

End AnalysisStep.

(** C7: a snippet without a statement is a no-op. When the reply holds no
    code block, or a block that is empty or holds blank lines and
    comments only, Python's [exec] runs nothing: the step stores as
    cleaned table a copy of the original table, unchanged, next to the
    report and the snippet, and the original stays in place. What the
    interpreter would do with a snippet that holds a statement plays no
    part. *)
Theorem analyze_click_empty_snippet
    (generate_content : str -> str -> result (option str))
    (run : str -> DataFrame -> result DataFrame)
    (md_rows md_dtypes : DataFrame -> str)
    (md_series : str -> list (str * float) -> str)
    (w : world) (df : DataFrame) (text : str) :
  ss_df_original (session w) = Some df ->
  generate_content model_name
    (generate_llm_prompt md_rows md_dtypes md_series df) = Ok (Some text) ->
  text <> [] ->
  contains fence_open text = false \/ extract_code text = [] \/
  no_statement (extract_code text) = true ->
  exists report,
    extract_report text = Ok report /\
    analyze_click generate_content (python_exec run) md_rows md_dtypes
      md_series w =
    (Ok tt,
     {| session := {| ss_df_original := Some df;
                      ss_df_clean := Some df;
                      ss_report_text := Some report;
                      ss_cleaning_code := Some (extract_code text) |};
        logs := logs w ++ [(INFO, start_message);
                           (INFO, pystr "Pipeline successful.")];
        screen := screen w;
        post_calls := post_calls w |}).
Proof.
  intros Hs Hg Hne Hc.
  assert (Hn : no_statement (extract_code text) = true).
  { destruct Hc as [Hc|[Hc|Hc]].
    - apply contains_false_find in Hc.
      unfold extract_code. now rewrite extract_code_body_no_open.
    - now rewrite Hc.
    - exact Hc. }
  destruct (extract_report_total text) as [report Hr].
  exists report. split; [exact Hr|].
  rewrite (analyze_click_run generate_content (python_exec run) md_rows
             md_dtypes md_series w df text report Hs Hg Hne Hr).
  unfold python_exec. rewrite Hn. reflexivity.
Qed.

Lemma analyze_click_snippet_raises_witness :
  analyze_click (fun _ _ => Ok (Some broken_reply)) scenario_interpreter
    no_markdown_rows no_markdown_rows no_markdown_series (uploaded people)
  = (Ok tt,
     {| session := session (uploaded people);
        logs := [ (INFO, pystr "Starting AI Analysis Pipeline...");
                  (ERROR, pystr "Pipeline failure: invalid syntax") ];
        screen := [ StError ([10060; 32]%N
                               ++ pystr "AI Processing Error: invalid syntax") ];
        post_calls := [] |}).
Proof.
  pose proof (analyze_click_snippet_raises
                (fun _ _ => Ok (Some broken_reply)) scenario_interpreter
                no_markdown_rows no_markdown_rows no_markdown_series
                (uploaded people) people broken_reply
                (Exception_ (pystr "invalid syntax"))) as H.
  cbn zeta in H.
  destruct (H eq_refl eq_refl ltac:(discriminate) eq_refl) as (_ & E & _).
  exact (E eq_refl).
Defined.

Lemma analyze_click_empty_snippet_witness :
  exists report,
    extract_report comment_reply = Ok report /\
    analyze_click (fun _ _ => Ok (Some comment_reply))
      (python_exec scenario_interpreter) no_markdown_rows no_markdown_rows
      no_markdown_series (uploaded people)
    = (Ok tt,
       {| session := {| ss_df_original := Some people;
                        ss_df_clean := Some people;
                        ss_report_text := Some report;
                        ss_cleaning_code := Some (pystr "# nothing to clean") |};
          logs := [] ++ [(INFO, start_message);
                         (INFO, pystr "Pipeline successful.")];
          screen := [];
          post_calls := [] |}).
Proof.
  apply (analyze_click_empty_snippet (fun _ _ => Ok (Some comment_reply))
           scenario_interpreter no_markdown_rows no_markdown_rows
           no_markdown_series (uploaded people) people comment_reply).
  - reflexivity.
  - reflexivity.
  - discriminate.
  - right. right. reflexivity.
Defined.

(** ** End-to-end scenario *)

(** C9: for a table with the columns id, name, age, three rows and exactly
    one missing age, the summary reports 33.33 percent missing for age and
    for no other column, and the prompt carries the rendering of that
    series; and when the reply carries the snippet
    [df['age'] = df['age'].fillna(df['age'].mean())], which the interpreter
    runs as pandas defines it, the step stores a cleaned table whose age
    column has no missing value (the mean [m] of the ages present being a
    number) and whose id and name columns are those of the original. *)
Theorem scenario_fillna_mean
    (generate_content : str -> str -> result (option str))
    (py_exec : str -> DataFrame -> result DataFrame)
    (md_rows md_dtypes : DataFrame -> str)
    (md_series : str -> list (str * float) -> str)
    (i1 i2 i3 : Z) (n1 n2 n3 : str) (ages : list cell) (m : float)
    (w : world) (text : str) :
  let df := scenario_table i1 i2 i3 n1 n2 n3 ages in
  length ages = 3 ->
  length (filter isnull ages) = 1 ->
  Series_mean ages = Ok m ->
  PrimFloat.is_nan m = false ->
  ss_df_original (session w) = Some df ->
  generate_content model_name
    (generate_llm_prompt md_rows md_dtypes md_series df) = Ok (Some text) ->
  extract_code text = fillna_mean_snippet ->
  py_exec fillna_mean_snippet df = run_fillna_mean df ->
  let out := analyze_click generate_content py_exec md_rows md_dtypes md_series w in
  let df' := scenario_table i1 i2 i3 n1 n2 n3 (fillna m ages) in
  missing_pct df = [(pystr "age", 33.33%float)] /\
  generate_llm_prompt md_rows md_dtypes md_series df =
    prompt_intro ++ md_rows (head 5 df)
      ++ dtypes_heading ++ md_dtypes df
      ++ missing_heading
      ++ md_series (pystr "Missing_Percentage") [(pystr "age", 33.33%float)]
      ++ [10%N] /\
  fst out = Ok tt /\
  ss_df_clean (session (snd out)) = Some df' /\
  filter isnull (fillna m ages) = [] /\
  getitem df' (pystr "id") = getitem df (pystr "id") /\
  getitem df' (pystr "name") = getitem df (pystr "name") /\
  ss_df_original (session (snd out)) = Some df.
Proof.
  cbn zeta. intros Hlen Hnull Hmean Hm Hs Hg Hc Hx.
  assert (Hpct : missing_pct (scenario_table i1 i2 i3 n1 n2 n3 ages)
                 = [(pystr "age", 33.33%float)]).
  { unfold missing_pct, isnull_sum, scenario_table, len.
    cbn [columns nrows map fst snd filter isnull length Nat.ltb Nat.leb].
    rewrite Hnull. vm_compute. reflexivity. }
  split; [exact Hpct|]. split.
  - unfold generate_llm_prompt. now rewrite Hpct.
  - assert (Hne : text <> []).
    { intros ->. discriminate Hc. }
    destruct (extract_report_total text) as [report Hr].
    rewrite (analyze_click_run generate_content py_exec md_rows md_dtypes
               md_series w _ text report Hs Hg Hne Hr).
    rewrite Hc. unfold copy. rewrite Hx.
    assert (R : run_fillna_mean (scenario_table i1 i2 i3 n1 n2 n3 ages)
                = Ok (scenario_table i1 i2 i3 n1 n2 n3 (fillna m ages))).
    { unfold run_fillna_mean.
      change (getitem (scenario_table i1 i2 i3 n1 n2 n3 ages) (pystr "age"))
        with (@Ok (list cell) ages).
      cbn [rbind]. rewrite Hmean. reflexivity. }
    rewrite R. cbn [fst snd session ss_df_clean ss_df_original].
    repeat split. now apply fillna_no_null.
Qed.

Lemma scenario_fillna_mean_witness :
  missing_pct people = [(pystr "age", 33.33%float)] /\
  fst (analyze_click (fun _ _ => Ok (Some fillna_reply)) scenario_interpreter
         no_markdown_rows no_markdown_rows no_markdown_series (uploaded people))
  = Ok tt /\
  ss_df_clean
    (session (snd (analyze_click (fun _ _ => Ok (Some fillna_reply))
                     scenario_interpreter no_markdown_rows no_markdown_rows
                     no_markdown_series (uploaded people))))
  = Some (scenario_table 1 2 3 (pystr "Ann") (pystr "Bob") (pystr "Cy")
            [VFloat 30; VFloat 35.5; VFloat 41]).
Proof.
  pose proof (scenario_fillna_mean
                (fun _ _ => Ok (Some fillna_reply)) scenario_interpreter
                no_markdown_rows no_markdown_rows no_markdown_series
                1 2 3 (pystr "Ann") (pystr "Bob") (pystr "Cy")
                [VFloat 30; VFloat PrimFloat.nan; VFloat 41] 35.5%float
                (uploaded people) fillna_reply
                eq_refl eq_refl eq_refl eq_refl eq_refl eq_refl eq_refl eq_refl)
    as (H1 & _ & H2 & H3 & _).
  split; [exact H1|]. split; [exact H2|]. exact H3.
Defined.

(** ** More on [find], [split] and [strip] *)

Lemma startswith_firstn (p s : str) (k : nat) :
  startswith p s = true -> length p <= k -> startswith p (firstn k s) = true.
Proof.
  revert s k; induction p as [|a p IH]; intros s k H Hk; [reflexivity|].
  destruct s as [|b s]; [discriminate|].
  destruct k as [|k]; [simpl in Hk; lia|].
  simpl in *. apply andb_prop in H as [Hab Hp].
  rewrite Hab. simpl. apply IH; [assumption | lia].
Qed.

Lemma startswith_of_firstn (p s : str) (k : nat) :
  startswith p (firstn k s) = true -> startswith p s = true.
Proof.
  revert s k; induction p as [|a p IH]; intros s k H; [reflexivity|].
  destruct s as [|b s]; [now rewrite firstn_nil in H|].
  destruct k as [|k]; [discriminate|].
  simpl in *. apply andb_prop in H as [Hab Hp].
  rewrite Hab. simpl. now apply (IH s k).
Qed.

(** An occurrence that fits in the first [k] characters is found there. *)
Lemma find_firstn_Some (sub s : str) (j k : nat) :
  find sub s = Some j -> j + length sub <= k -> find sub (firstn k s) = Some j.
Proof.
  revert j k; induction s as [|c s IH]; intros j k H Hk.
  - now rewrite firstn_nil.
  - simpl in H. destruct (startswith sub (c :: s)) eqn:E.
    + injection H as <-. apply find_startswith.
      apply startswith_firstn; [assumption | lia].
    + destruct (find sub s) as [j'|] eqn:F; [|discriminate].
      injection H as <-. destruct k as [|k]; [lia|].
      cbn [firstn]. rewrite find_cons_skip.
      * rewrite (IH j' k eq_refl) by lia. reflexivity.
      * destruct (startswith sub (c :: firstn k s)) eqn:G; [|reflexivity].
        apply (startswith_of_firstn sub (c :: s) (S k)) in G. congruence.
Qed.

Lemma find_Some_startswith (sub s : str) (i : nat) :
  find sub s = Some i -> startswith sub (skipn i s) = true.
Proof.
  revert i; induction s as [|c s IH]; intros i H; simpl in H.
  - destruct (startswith sub []) eqn:E; [|discriminate].
    injection H as <-. exact E.
  - destruct (startswith sub (c :: s)) eqn:E.
    + injection H as <-. exact E.
    + destruct (find sub s) as [j|]; [|discriminate].
      injection H as <-. simpl. now apply IH.
Qed.

(** No occurrence starts before the one [find] returns. *)
Lemma find_Some_minimal (sub s : str) (i k : nat) :
  find sub s = Some i -> k < i -> startswith sub (skipn k s) = false.
Proof.
  revert i k; induction s as [|c s IH]; intros i k H Hk; simpl in H.
  - destruct (startswith sub []); [|discriminate].
    injection H as <-. lia.
  - destruct (startswith sub (c :: s)) eqn:E.
    + injection H as <-. lia.
    + destruct (find sub s) as [j|] eqn:F; [|discriminate].
      injection H as <-. destruct k as [|k]; [exact E|].
      simpl. apply (IH j); [reflexivity | lia].
Qed.

Lemma split_loop_nonempty (sep s : str) : split_loop sep s <> [].
Proof.
  destruct (split_loop_head sep s) as (p & rest & E & _). now rewrite E.
Qed.

Lemma join_cons (sep p : str) (parts : list str) :
  parts <> [] -> join sep (p :: parts) = p ++ sep ++ join sep parts.
Proof. destruct parts; [congruence | reflexivity]. Qed.

Lemma split_loop_join (sep s : str) :
  sep <> [] -> join sep (split_loop sep s) = s.
Proof.
  intros Hne. remember (length s) as n eqn:En. revert s En.
  induction n as [n IH] using lt_wf_ind. intros s En.
  destruct (find sep s) as [i|] eqn:F.
  - rewrite (split_loop_Some sep s i Hne F).
    rewrite join_cons by apply split_loop_nonempty.
    rewrite (IH (length (skipn (i + length sep) s))); [| |reflexivity].
    + symmetry. now apply find_Some_split.
    + apply find_bound in F. rewrite length_skipn.
      destruct sep; [congruence|]. simpl in *. lia.
  - now rewrite split_loop_None.
Qed.

Lemma split_loop_pieces (sep s : str) :
  sep <> [] -> Forall (fun p => find sep p = None) (split_loop sep s).
Proof.
  intros Hne. remember (length s) as n eqn:En. revert s En.
  induction n as [n IH] using lt_wf_ind. intros s En.
  destruct (find sep s) as [i|] eqn:F.
  - rewrite (split_loop_Some sep s i Hne F). constructor.
    + now apply find_firstn_None.
    + apply (IH (length (skipn (i + length sep) s))); [|reflexivity].
      apply find_bound in F. rewrite length_skipn.
      destruct sep; [congruence|]. simpl in *. lia.
  - rewrite split_loop_None by assumption. now constructor.
Qed.

(** X1: [split] loses nothing: whenever [s.split(sep)] returns, joining
    the pieces with [sep] gives [s] back, and there is at least one piece;
    it raises [ValueError] exactly for the empty separator. *)
Theorem split_join (sep s : str) :
  (forall parts, split sep s = Ok parts -> join sep parts = s /\ parts <> []) /\
  (split sep s = Raise ValueError <-> sep = []) /\
  (sep <> [] -> exists parts, split sep s = Ok parts).
Proof.
  split; [|split].
  - intros parts H. destruct sep as [|c sep']; [discriminate|].
    injection H as <-. split.
    + now apply split_loop_join.
    + apply split_loop_nonempty.
  - destruct sep; simpl; split; congruence.
  - intros H. destruct sep; [congruence|]. now eexists.
Qed.

Lemma split_join_witness :
  join (pystr ", ") [pystr "id"; pystr "name"; pystr "age"] = pystr "id, name, age".
Proof.
  apply (proj1 (split_join (pystr ", ") (pystr "id, name, age")) _ eq_refl).
Defined.

(** X2: no piece that [split] returns holds the separator. *)
Theorem split_pieces_clean (sep s : str) (parts : list str) :
  split sep s = Ok parts -> Forall (fun p => contains sep p = false) parts.
Proof.
  intros H. destruct sep as [|c sep']; [discriminate|].
  injection H as <-.
  eapply Forall_impl; [|apply split_loop_pieces; discriminate].
  intros p Hp. now apply contains_false_find.
Qed.

Lemma split_pieces_clean_witness :
  Forall (fun p => contains (pystr "```") p = false)
         [pystr "a "; pystr "python b "; pystr " c"].
Proof.
  apply (split_pieces_clean (pystr "```") (pystr "a ```python b ``` c") _ eq_refl).
Defined.

Lemma lstrip_suffix_spaces (s : str) :
  exists a, s = a ++ lstrip s /\ forallb isspace a = true.
Proof.
  induction s as [|c s (a & IH & Ha)]; simpl; [now exists []|].
  destruct (isspace c) eqn:E; [|now exists []].
  exists (c :: a). simpl. rewrite E, Ha. split; [now f_equal | reflexivity].
Qed.

Lemma forallb_rev {A} (f : A -> bool) (l : list A) :
  forallb f (rev l) = forallb f l.
Proof.
  induction l as [|x l IH]; [reflexivity|].
  simpl. rewrite forallb_app, IH. simpl.
  now rewrite andb_true_r, andb_comm.
Qed.

(** X3: [strip] removes exactly the surrounding whitespace: the text is
    a run of whitespace, the stripped text, and a run of whitespace, and
    the stripped text neither starts nor ends with whitespace. *)
Theorem strip_spec (s : str) :
  exists a b,
    s = a ++ strip s ++ b /\
    forallb isspace a = true /\ forallb isspace b = true /\
    (forall c, hd_error (strip s) = Some c -> isspace c = false) /\
    (forall c, hd_error (rev (strip s)) = Some c -> isspace c = false).
Proof.
  destruct (lstrip_suffix_spaces s) as (a & Ea & Ha).
  destruct (lstrip_suffix_spaces (rev (lstrip s))) as (b' & Eb & Hb).
  exists a, (rev b'). split; [|split; [|split; [|split]]].
  - unfold strip, rstrip. rewrite <- rev_app_distr, <- Eb, rev_involutive.
    exact Ea.
  - exact Ha.
  - now rewrite forallb_rev.
  - intros c Hc. destruct (strip s) as [|d r] eqn:E; [discriminate|].
    injection Hc as ->.
    apply (lstrip_head (strip s) c r).
    rewrite stripped_lstrip by apply strip_idem. exact E.
  - intros c Hc. unfold strip, rstrip in Hc. rewrite rev_involutive in Hc.
    destruct (lstrip (rev (lstrip s))) as [|d r] eqn:E; [discriminate|].
    injection Hc as ->. now apply (lstrip_head _ _ _ E).
Qed.

(** ** More on the response parser *)

(** The snippet of a closed block. *)
Lemma extract_code_body_closed (text : str) (i j : nat) :
  find fence_open text = Some i ->
  find fence_close (skipn (i + length fence_open) text) = Some j ->
  (forall k, find fence_open (skipn (i + length fence_open) text) = Some k ->
             k = j \/ j + length fence_close <= k) ->
  extract_code_body text
  = Ok (strip (firstn j (skipn (i + length fence_open) text))).
Proof.
  intros Ho Hc Hk. unfold extract_code_body.
  rewrite split_fence_open, (split_loop_Some _ _ i fence_open_ne Ho).
  set (rest := skipn (i + length fence_open) text) in *.
  destruct (split_loop_head fence_open rest) as (after & tl & E & HN & HS).
  rewrite E. cbn [rbind index nth_error]. rewrite split_fence_close.
  destruct (split_loop_head fence_close after) as (inner & tl' & E' & HN' & HS').
  rewrite E'. cbn [rbind index nth_error]. do 2 f_equal.
  destruct (find fence_open rest) as [k|] eqn:F.
  - rewrite (HS k fence_open_ne eq_refl) in *.
    destruct (Hk k eq_refl) as [->|Hle].
    + apply HN'. now apply find_firstn_None.
    + rewrite (HS' j fence_close_ne (find_firstn_Some _ _ j k Hc Hle)).
      rewrite firstn_firstn. f_equal.
      change (length fence_close) with 3 in Hle. lia.
  - rewrite (HN eq_refl) in *. now apply HS'.
Qed.

Lemma extract_code_closed (text : str) (i j : nat) :
  find fence_open text = Some i ->
  find fence_close (skipn (i + length fence_open) text) = Some j ->
  (forall k, find fence_open (skipn (i + length fence_open) text) = Some k ->
             k = j \/ j + length fence_close <= k) ->
  extract_code text = strip (firstn j (skipn (i + length fence_open) text)).
Proof.
  intros Ho Hc Hk. apply extract_code_of_body.
  now apply extract_code_body_closed.
Qed.

(** X4: a closed block. When the opening marker first occurs at [i], the
    closing marker first occurs [j] characters after it, and no further
    opening marker starts inside that closing marker, [extract_code]
    returns the [j] characters between the two, stripped. *)
Theorem extract_code_closed_block (text : str) (i j : nat) :
  find fence_open text = Some i ->
  find fence_close (skipn (i + length fence_open) text) = Some j ->
  (forall k, find fence_open (skipn (i + length fence_open) text) = Some k ->
             k = j \/ j + length fence_close <= k) ->
  extract_code text = strip (firstn j (skipn (i + length fence_open) text)).
Proof.
  intros Ho Hc Hk. apply extract_code_of_body.
  now apply extract_code_body_closed.
Qed.

Lemma extract_code_closed_block_witness :
  extract_code fillna_reply
  = strip (firstn 48 (skipn (80 + length fence_open) fillna_reply)).
Proof.
  apply (extract_code_closed_block fillna_reply 80 48); try reflexivity.
  intros k H. discriminate H.
Defined.

(** A text without backticks holds no marker, and a search skips it. *)
Lemma find_skip_clean (q pre r : str) :
  ~ In 96%N pre ->
  find (96%N :: q) (pre ++ r)
  = option_map (fun k => length pre + k) (find (96%N :: q) r).
Proof.
  intros H. induction pre as [|c pre IH].
  - simpl app. destruct (find _ r); reflexivity.
  - simpl app. rewrite find_cons_skip.
    + rewrite IH by (intros Hin; apply H; now right).
      destruct (find _ r); reflexivity.
    + cbn [startswith]. destruct (N.eqb_spec 96 c) as [<-|]; [|reflexivity].
      exfalso. apply H. now left.
Qed.

Lemma fence_open_cons : fence_open = 96%N :: [96; 96]%N ++ pystr "python".
Proof. reflexivity. Qed.

Lemma fence_close_cons : fence_close = 96%N :: [96; 96]%N.
Proof. reflexivity. Qed.

Lemma find_clean_None (q s : str) : ~ In 96%N s -> find (96%N :: q) s = None.
Proof.
  intros H. rewrite <- (app_nil_r s), find_skip_clean by assumption.
  reflexivity.
Qed.

(** After a closing marker and a text without backticks, an opening marker
    can only start at the closing marker itself. *)
Lemma find_open_after_close (post : str) :
  ~ In 96%N post ->
  find fence_open (fence_close ++ post) = None \/
  find fence_open (fence_close ++ post) = Some 0.
Proof.
  intros H.
  destruct (startswith fence_open (fence_close ++ post)) eqn:E.
  - right. now apply find_startswith.
  - left.
    assert (N0 : find fence_open post = None).
    { rewrite fence_open_cons. now apply find_clean_None. }
    assert (S1 : startswith fence_open (96%N :: post) = false).
    { destruct post as [|c post]; [reflexivity|].
      rewrite fence_open_cons. cbn [startswith app].
      destruct (N.eqb_spec 96 c) as [<-|]; [|reflexivity].
      exfalso. apply H. now left. }
    assert (S2 : startswith fence_open (96%N :: 96%N :: post) = false).
    { destruct post as [|c post]; [reflexivity|].
      rewrite fence_open_cons. cbn [startswith app].
      destruct (N.eqb_spec 96 c) as [<-|]; [|reflexivity].
      exfalso. apply H. now left. }
    exact (eq_trans (find_cons_skip fence_open _ _ E)
             (f_equal (option_map S)
                (eq_trans (find_cons_skip fence_open _ _ S2)
                   (f_equal (option_map S)
                      (eq_trans (find_cons_skip fence_open _ _ S1)
                         (f_equal (option_map S) N0)))))).
Qed.

(** X5: parsing a well-formed reply gives its two parts back. For a reply
    made of a preamble, the opening marker, a body, the closing marker and
    a trailer, none of the three texts holding a backtick, [extract_code]
    returns the body, stripped, and, when the preamble holds the rationale
    header, [extract_report] returns the preamble, stripped. *)
Theorem parse_well_formed_reply (pre body post : str) :
  ~ In 96%N pre -> ~ In 96%N body -> ~ In 96%N post ->
  let text := pre ++ fence_open ++ body ++ fence_close ++ post in
  extract_code text = strip body /\
  (contains rationale_header pre = true ->
   extract_report text = Ok (strip pre)).
Proof.
  intros Hpre Hbody Hpost. cbn zeta.
  set (rest := body ++ fence_close ++ post).
  assert (Ho : find fence_open (pre ++ fence_open ++ rest) = Some (length pre)).
  { rewrite fence_open_cons at 1. rewrite find_skip_clean by assumption.
    rewrite <- fence_open_cons.
    rewrite (find_startswith _ _ (startswith_app fence_open rest)).
    simpl. now rewrite Nat.add_0_r. }
  assert (Hr : skipn (length pre + length fence_open) (pre ++ fence_open ++ rest)
               = rest).
  { rewrite app_assoc, <- length_app. rewrite skipn_app, skipn_all, Nat.sub_diag.
    reflexivity. }
  assert (Hc : find fence_close rest = Some (length body)).
  { unfold rest. rewrite fence_close_cons at 1.
    rewrite find_skip_clean by assumption. rewrite <- fence_close_cons.
    rewrite (find_startswith _ _ (startswith_app fence_close post)).
    simpl. now rewrite Nat.add_0_r. }
  split.
  - rewrite (extract_code_closed _ (length pre) (length body) Ho);
      rewrite Hr.
    + unfold rest. now rewrite firstn_app, firstn_all, Nat.sub_diag, app_nil_r.
    + exact Hc.
    + intros k Hk. left. unfold rest in Hk.
      rewrite fence_open_cons in Hk at 1.
      rewrite find_skip_clean in Hk by assumption.
      rewrite <- fence_open_cons in Hk.
      destruct (find_open_after_close post Hpost) as [E|E];
        rewrite E in Hk; [discriminate|].
      injection Hk as <-. lia.
  - intros Hh.
    assert (Hh' : contains rationale_header (pre ++ fence_open ++ rest) = true).
    { apply contains_occurs. apply contains_occurs in Hh.
      destruct Hh as (a & b & ->). exists a, (b ++ fence_open ++ rest).
      now rewrite <- !app_assoc. }
    rewrite (extract_report_header_open _ _ Hh' Ho).
    now rewrite firstn_app, firstn_all, Nat.sub_diag, app_nil_r.
Qed.

Lemma parse_well_formed_reply_witness :
  extract_code (pystr "RATIONALE: fill the gaps.
" ++ fence_open ++ pystr "
df = df.fillna(0)
" ++ fence_close ++ pystr "
Done.") = pystr "df = df.fillna(0)".
Proof.
  refine (proj1 (parse_well_formed_reply (pystr "RATIONALE: fill the gaps.
") (pystr "
df = df.fillna(0)
") (pystr "
Done.") _ _ _)); vm_compute; intuition discriminate.
Defined.

(** X6: what [extract_code] returns never holds a fence marker, opening or
    closing, and carries no whitespace at either end. *)
Theorem extract_code_output (text : str) :
  contains fence_close (extract_code text) = false /\
  contains fence_open (extract_code text) = false /\
  strip (extract_code text) = extract_code text /\
  (forall c, hd_error (extract_code text) = Some c -> isspace c = false) /\
  (forall c, hd_error (rev (extract_code text)) = Some c -> isspace c = false).
Proof.
  pose proof (extract_code_no_fence text) as Hn.
  pose proof (extract_code_stripped text) as Hs.
  split; [|split; [|split; [|split]]].
  - now apply contains_false_find.
  - apply contains_false_find. rewrite fence_open_eq.
    now apply find_None_longer.
  - exact Hs.
  - intros c Hc. destruct (extract_code text) as [|d r] eqn:E; [discriminate|].
    injection Hc as ->. apply (lstrip_head (c :: r) c r).
    now apply stripped_lstrip.
  - intros c Hc. rewrite <- Hs in Hc. unfold strip, rstrip in Hc.
    rewrite rev_involutive in Hc.
    destruct (lstrip (rev (lstrip (extract_code text)))) as [|d r] eqn:E;
      [discriminate|].
    injection Hc as ->. now apply (lstrip_head _ _ _ E).
Qed.

(** X7: [extract_report] always returns, and what it returns never holds
    the opening fence marker and carries no whitespace at either end. *)
Theorem extract_report_output (text : str) :
  exists s, extract_report text = Ok s /\
            contains fence_open s = false /\ strip s = s.
Proof.
  unfold extract_report.
  destruct (contains rationale_header text).
  - rewrite split_fence_open.
    destruct (split_loop_head fence_open text) as (p & tl & E & HN & HS).
    rewrite E. cbn [rbind index nth_error]. eexists. split; [reflexivity|].
    split; [|apply strip_idem].
    apply contains_false_find, find_None_strip.
    destruct (find fence_open text) as [i|] eqn:F.
    + rewrite (HS i fence_open_ne eq_refl).
      now apply find_firstn_None.
    + now rewrite (HN eq_refl).
  - exists fallback_report. repeat split.
Qed.

(** ** More on the summary builder *)

Lemma positive_count_existsb (col : list cell) :
  (0 <? length (filter isnull col)) = existsb isnull col.
Proof.
  induction col as [|c col IH]; [reflexivity|].
  simpl. destruct (isnull c); [reflexivity | exact IH].
Qed.

(** X8: the series of missing percentages lists exactly the columns that
    have at least one missing cell, in the order of the table; a table
    without a missing cell gives an empty series. *)
Theorem missing_pct_columns (df : DataFrame) :
  map fst (missing_pct df)
  = map fst (filter (fun col => existsb isnull (snd col)) (columns df)) /\
  ((forall col, In col (columns df) -> existsb isnull (snd col) = false) ->
   missing_pct df = []).
Proof.
  assert (A : map fst (missing_pct df)
              = map fst (filter (fun col => existsb isnull (snd col)) (columns df))).
  { unfold missing_pct, isnull_sum. rewrite map_map. cbn [fst].
    induction (columns df) as [|col cols IH]; [reflexivity|].
    cbn [map filter fst snd]. rewrite positive_count_existsb.
    destruct (existsb isnull (snd col)); cbn [map fst]; now rewrite IH. }
  split; [exact A|].
  intros H. apply map_eq_nil with (f := fst). rewrite A.
  assert (F : forall cols : list (str * list cell),
             (forall col, In col cols -> existsb isnull (snd col) = false) ->
             filter (fun col => existsb isnull (snd col)) cols = []).
  { induction cols as [|col cols IH]; intros Hc; [reflexivity|].
    cbn [filter]. rewrite (Hc col) by now left.
    apply IH. intros c Hin. apply Hc. now right. }
  now rewrite (F _ H).
Qed.

Lemma missing_pct_columns_witness : missing_pct people_sample = [].
Proof.
  refine (proj2 (missing_pct_columns people_sample) _).
  intros col Hc. cbn in Hc. destruct Hc as [<-|[<-|[]]]; reflexivity.
Defined.

Lemma occurs_app_l (sub s t : str) : occurs sub s -> occurs sub (s ++ t).
Proof.
  intros (a & b & ->). exists a, (b ++ t). now rewrite <- !app_assoc.
Qed.

Lemma occurs_app_r (sub s t : str) : occurs sub t -> occurs sub (s ++ t).
Proof.
  intros (a & b & ->). exists (s ++ a), b. now rewrite <- !app_assoc.
Qed.

Lemma occurs_self (s : str) : occurs s s.
Proof. exists [], []. now rewrite app_nil_r. Qed.

(** X9: composer and parser agree on their markers. Whatever the table and
    the renderer, the prompt names the rationale header and both fence
    markers as the parser looks for them, and it embeds the three
    renderings of the summary. *)
Theorem prompt_contents
    (md_rows md_dtypes : DataFrame -> str)
    (md_series : str -> list (str * float) -> str) (df : DataFrame) :
  let prompt := generate_llm_prompt md_rows md_dtypes md_series df in
  contains rationale_header prompt = true /\
  contains fence_open prompt = true /\
  contains fence_close prompt = true /\
  occurs (md_rows (head 5 df)) prompt /\
  occurs (md_dtypes df) prompt /\
  occurs (md_series (pystr "Missing_Percentage") (missing_pct df)) prompt.
Proof.
  cbn zeta. unfold generate_llm_prompt.
  assert (I : forall sub, contains sub prompt_intro = true ->
                forall t, contains sub (prompt_intro ++ t) = true).
  { intros sub H t. apply contains_occurs, occurs_app_l.
    now apply contains_occurs. }
  split; [now apply I|]. split; [now apply I|]. split; [now apply I|].
  split; [|split].
  - apply occurs_app_r, occurs_app_l, occurs_self.
  - do 3 apply occurs_app_r. apply occurs_app_l, occurs_self.
  - do 5 apply occurs_app_r. apply occurs_app_l, occurs_self.
Qed.

Lemma find_app_l (sub s t : str) (i : nat) :
  find sub s = Some i -> find sub (s ++ t) = Some i.
Proof.
  intros H.
  pose proof (find_bound sub s i H) as Hb.
  assert (E : s = firstn (length s) (s ++ t)).
  { now rewrite firstn_app, Nat.sub_diag, firstn_all, app_nil_r. }
  destruct (find sub (s ++ t)) as [k|] eqn:F.
  - destruct (Nat.lt_trichotomy k i) as [L|[->|G]]; [|reflexivity|].
    + exfalso.
      assert (Fk : find sub (firstn (length s) (s ++ t)) = Some k).
      { apply find_firstn_Some; [exact F | lia]. }
      rewrite <- E in Fk. assert (k = i) by congruence. lia.
    + exfalso.
      pose proof (find_Some_startswith sub s i H) as S1.
      pose proof (find_Some_minimal sub (s ++ t) k i F G) as S2.
      apply startswith_split in S1.
      assert (S3 : startswith sub (skipn i (s ++ t)) = true).
      { rewrite skipn_app. replace (i - length s) with 0 by lia.
        rewrite S1, <- app_assoc. apply startswith_app. }
      congruence.
  - exfalso. apply find_None_occurs in F. apply F.
    apply occurs_app_l. apply find_Some_split in H.
    now exists (firstn i s), (skipn (i + length sub) s).
Qed.

(** X21: the prompt read as a reply. The instructions of the prompt quote
    both fence markers, so for every table and renderer the parser finds a
    code block in the prompt itself: [extract_code] returns the words
    between the two quoted markers, and [extract_report] the instructions
    before the first one. *)
Theorem prompt_echo
    (md_rows md_dtypes : DataFrame -> str)
    (md_series : str -> list (str * float) -> str) (df : DataFrame) :
  let prompt := generate_llm_prompt md_rows md_dtypes md_series df in
  extract_code prompt = pystr "and ending with" /\
  extract_report prompt = Ok (strip (firstn 294 prompt_intro)).
Proof.
  cbn zeta. unfold generate_llm_prompt. cbn zeta.
  set (T := md_rows (head 5 df) ++ _).
  assert (F0 : find fence_open (prompt_intro ++ T) = Some 294).
  { apply find_app_l. vm_compute. reflexivity. }
  set (R0 := skipn 303 prompt_intro).
  assert (Hrest : skipn (294 + length fence_open) (prompt_intro ++ T) = R0 ++ T).
  { rewrite skipn_app.
    change (294 + length fence_open - length prompt_intro) with 0.
    reflexivity. }
  assert (Fc : find fence_close (R0 ++ T) = Some 17).
  { apply find_app_l. vm_compute. reflexivity. }
  split.
  - rewrite (extract_code_closed _ 294 17 F0); rewrite Hrest.
    + rewrite firstn_app. change (17 - length R0) with 0.
      vm_compute. reflexivity.
    + exact Fc.
    + intros k Hk. change (length fence_close) with 3.
      destruct (Nat.lt_ge_cases k 17) as [L|G].
      * exfalso.
        pose proof (find_Some_startswith _ _ _ Hk) as S1.
        rewrite fence_open_eq in S1. apply startswith_prefix in S1.
        pose proof (find_Some_minimal _ _ _ _ Fc L) as S2. congruence.
      * destruct (Nat.eq_dec k 17) as [->|N17]; [now left|].
        destruct (Nat.eq_dec k 18) as [->|N18].
        { apply find_Some_startswith in Hk. vm_compute in Hk. discriminate Hk. }
        destruct (Nat.eq_dec k 19) as [->|N19].
        { apply find_Some_startswith in Hk. vm_compute in Hk. discriminate Hk. }
        right. lia.
  - assert (Hh : contains rationale_header (prompt_intro ++ T) = true).
    { apply contains_occurs, occurs_app_l, contains_occurs. reflexivity. }
    rewrite (extract_report_header_open _ _ Hh F0).
    rewrite firstn_app. change (294 - length prompt_intro) with 0.
    now rewrite app_nil_r.
Qed.

(** ** More on the delivery notifier *)

(** X10: [send_to_webhook] never touches the session state or the page,
    whatever the network does, and it logs nothing unless the POST raised
    an exception it handles; an exception outside the [Exception]
    hierarchy is not handled: it leaves the function, unlogged, after the
    one call to [requests.post]. *)
Theorem send_to_webhook_frame (post : request -> result Z)
    (localtime : struct_time) (dataframe : DataFrame) (webhook_url : str)
    (w : world) :
  let r := webhook_request localtime dataframe webhook_url in
  let out := send_to_webhook post localtime dataframe webhook_url w in
  session (snd out) = session w /\
  screen (snd out) = screen w /\
  ((forall e, post r = Raise e -> is_Exception e = false) ->
   logs (snd out) = logs w) /\
  (forall e, post r = Raise e -> is_Exception e = false ->
     out = (Raise e, with_post_call r w)).
Proof.
  cbn zeta. rewrite send_to_webhook_run. cbn zeta.
  destruct (post _) as [s|e] eqn:P.
  - repeat split. intros e H. discriminate H.
  - destruct (is_Exception e) eqn:E.
    + split; [reflexivity|]. split; [reflexivity|]. split.
      * intros H. specialize (H e eq_refl). congruence.
      * intros e' [= <-] H. congruence.
    + repeat split. intros e' [= <-] _. reflexivity.
Qed.

Lemma send_to_webhook_frame_witness :
  send_to_webhook (fun _ => Raise (BaseException_ (pystr "KeyboardInterrupt")))
    noon people_sample hook_url blank_world
  = (Raise (BaseException_ (pystr "KeyboardInterrupt")),
     with_post_call (webhook_request noon people_sample hook_url) blank_world).
Proof.
  pose proof (send_to_webhook_frame
                (fun _ => Raise (BaseException_ (pystr "KeyboardInterrupt")))
                noon people_sample hook_url blank_world) as H.
  cbn zeta in H. destruct H as (_ & _ & _ & H).
  exact (H _ eq_refl eq_refl).
Defined.

Lemma digit_inj (a b : Z) : digit a = digit b -> (a mod 10 = b mod 10)%Z.
Proof.
  unfold digit. intros H.
  pose proof (Z.mod_pos_bound a 10 eq_refl).
  pose proof (Z.mod_pos_bound b 10 eq_refl).
  apply Z2N.inj in H; lia.
Qed.

Lemma two_digits_inj (a b : Z) :
  (0 <= a <= 99)%Z -> (0 <= b <= 99)%Z ->
  digit (a / 10) = digit (b / 10) -> digit a = digit b -> a = b.
Proof.
  intros Ha Hb H1 H0. apply digit_inj in H1. apply digit_inj in H0.
  assert (A : (0 <= a / 10 < 10)%Z)
    by (split; [apply Z.div_pos | apply Z.div_lt_upper_bound]; lia).
  assert (B : (0 <= b / 10 < 10)%Z)
    by (split; [apply Z.div_pos | apply Z.div_lt_upper_bound]; lia).
  rewrite !Z.mod_small in H1 by assumption.
  rewrite (Z.div_mod a 10), (Z.div_mod b 10) by lia. now rewrite H1, H0.
Qed.

Lemma last_digit_inj (a b : Z) :
  (a / 10 = b / 10)%Z -> digit a = digit b -> a = b.
Proof.
  intros H1 H0. apply digit_inj in H0.
  rewrite (Z.div_mod a 10), (Z.div_mod b 10) by lia. now rewrite H1, H0.
Qed.

(** X11: the timestamp determines the clock reading: two calendar times
    with four-digit years that format to the same text under
    [%Y-%m-%d %H:%M:%S] are the same time. *)
Theorem strftime_timestamp_inj (t1 t2 : struct_time) :
  valid_time t1 -> valid_time t2 ->
  strftime timestamp_format t1 = strftime timestamp_format t2 ->
  t1 = t2.
Proof.
  intros V1 V2 H.
  rewrite !strftime_timestamp in H by assumption.
  destruct t1 as [y1 m1 d1 h1 n1 s1], t2 as [y2 m2 d2 h2 n2 s2].
  unfold valid_time in V1, V2. cbn [tm_year tm_mon tm_mday tm_hour tm_min tm_sec] in *.
  injection H as Y3 Y2 Y1 Y0 M1 M0 D1 D0 H1 H0 N1 N0 S1 S0.
  assert (y1 = y2).
  { apply last_digit_inj; [|assumption].
    apply last_digit_inj; [|assumption].
    rewrite !Z.div_div by lia. change (10 * 10)%Z with 100%Z.
    apply last_digit_inj; [|assumption].
    rewrite !Z.div_div by lia. change (100 * 10)%Z with 1000%Z.
    apply digit_inj in Y3.
    assert (A : (1 <= y1 / 1000 < 10)%Z)
      by (split; [apply Z.div_le_lower_bound | apply Z.div_lt_upper_bound]; lia).
    assert (B : (1 <= y2 / 1000 < 10)%Z)
      by (split; [apply Z.div_le_lower_bound | apply Z.div_lt_upper_bound]; lia).
    rewrite !Z.mod_small in Y3 by lia. exact Y3. }
  assert (m1 = m2) by (apply two_digits_inj; (assumption || lia)).
  assert (d1 = d2) by (apply two_digits_inj; (assumption || lia)).
  assert (h1 = h2) by (apply two_digits_inj; (assumption || lia)).
  assert (n1 = n2) by (apply two_digits_inj; (assumption || lia)).
  assert (s1 = s2) by (apply two_digits_inj; (assumption || lia)).
  now subst.
Qed.

Lemma strftime_timestamp_inj_witness :
  {| tm_year := 2024; tm_mon := 5; tm_mday := 17;
     tm_hour := 12; tm_min := 0; tm_sec := 9 |} = noon.
Proof.
  apply strftime_timestamp_inj.
  - unfold valid_time. cbn. lia.
  - unfold valid_time, noon. cbn. lia.
  - reflexivity.
Defined.

(** ** More on the analysis step *)

Definition blocked_banner : str :=
  [9888; 65039]%N ++ pystr " AI response blocked or empty.".

(** The session after a successful analysis of [df]. *)
Definition analyzed (df df' : DataFrame) (report code : str) : session_state :=
  {| ss_df_original := Some df; ss_df_clean := Some df';
     ss_report_text := Some report; ss_cleaning_code := Some code |}.

(** Whenever the cleaned table is set, the report and the snippet are. *)
Definition consistent (s : session_state) : Prop :=
  ss_df_clean s <> None ->
  ss_report_text s <> None /\ ss_cleaning_code s <> None.

Section AnalysisPaths.

Variable generate_content : str -> str -> result (option str).
Variable py_exec : str -> DataFrame -> result DataFrame.
Variable md_rows : DataFrame -> str.
Variable md_dtypes : DataFrame -> str.
Variable md_series : str -> list (str * float) -> str.

(** Every path of the step at once: [requests.post] is not called, the
    original table stays, the session is untouched or fully written, and an exception
    that leaves the step is outside the [Exception] hierarchy unless the
    original table was unset. *)
Lemma analyze_click_effect (w : world) :
  exists r w',
    analyze_click generate_content py_exec md_rows md_dtypes md_series w = (r, w') /\
    post_calls w' = post_calls w /\
    (session w' = session w \/
     r = Ok tt /\
     exists df df' report code,
       ss_df_original (session w) = Some df /\
       session w' = analyzed df df' report code) /\
    (forall e, r = Raise e ->
       is_Exception e = false \/ ss_df_original (session w) = None).
Proof.
  unfold analyze_click, bind, try_except, get_df_original, logger, lift, exec,
    st_stop, raise, st_error, ret.
  cbn [session logs screen post_calls].
  destruct (ss_df_original (session w)) as [df|] eqn:Hs.
  2:{ eexists _, _. split; [reflexivity|]. cbn. repeat split; auto. }
  cbn zeta.
  destruct (generate_content _ _) as [[[|c t]|]|e].
  - eexists _, _. split; [reflexivity|]. cbn. repeat split; auto.
    intros e [= <-]. now left.
  - destruct (extract_report (c :: t)) as [report|e].
    + cbn [session]. rewrite Hs.
      destruct (py_exec _ _) as [df'|e].
      * eexists _, _. split; [reflexivity|]. cbn. rewrite Hs.
        split; [reflexivity|]. split.
        -- right. split; [reflexivity|]. now eexists _, _, _, _.
        -- intros e H. discriminate H.
      * destruct (is_Exception e) eqn:E; cbn; rewrite ?E;
          eexists _, _; (split; [reflexivity|]); cbn; repeat split; auto.
        -- intros e0 H. discriminate H.
        -- intros e0 [= <-]. now left.
    + destruct (is_Exception e) eqn:E; cbn; rewrite ?E;
        eexists _, _; (split; [reflexivity|]); cbn; repeat split; auto.
      * intros e0 H. discriminate H.
      * intros e0 [= <-]. now left.
  - eexists _, _. split; [reflexivity|]. cbn. repeat split; auto.
    intros e [= <-]. now left.
  - destruct (is_Exception e) eqn:E; cbn; rewrite ?E;
      eexists _, _; (split; [reflexivity|]); cbn; repeat split; auto.
    + intros e0 H. discriminate H.
    + intros e0 [= <-]. now left.
Qed.

(** X12: a successful analysis. When the service replies with a non-empty
    text and the interpreter runs the extracted snippet to the end, the
    step stores the table the interpreter left, the report and the snippet
    as the parser extracted them, keeps the original table, logs its start
    and its success, and shows nothing. *)
Theorem analyze_click_success (w : world) (df df' : DataFrame) (text : str) :
  ss_df_original (session w) = Some df ->
  generate_content model_name
    (generate_llm_prompt md_rows md_dtypes md_series df) = Ok (Some text) ->
  text <> [] ->
  py_exec (extract_code text) df = Ok df' ->
  exists report,
    extract_report text = Ok report /\
    analyze_click generate_content py_exec md_rows md_dtypes md_series w =
    (Ok tt,
     {| session := analyzed df df' report (extract_code text);
        logs := logs w ++ [(INFO, start_message);
                           (INFO, pystr "Pipeline successful.")];
        screen := screen w;
        post_calls := post_calls w |}).
Proof.
  intros Hs Hg Hne Hx.
  destruct (extract_report_total text) as [report Hr].
  exists report. split; [exact Hr|].
  rewrite (analyze_click_run generate_content py_exec md_rows md_dtypes
             md_series w df text report Hs Hg Hne Hr).
  unfold copy. now rewrite Hx.
Qed.

(** X13: a failing service. When the call to the text generation service
    raises an exception of the [Exception] hierarchy, the step ends
    normally with the exception's message in the log and on the page, the
    session as it was, and the interpreter plays no part. *)
Theorem analyze_click_service_error (w : world) (df : DataFrame) (e : exn) :
  ss_df_original (session w) = Some df ->
  generate_content model_name
    (generate_llm_prompt md_rows md_dtypes md_series df) = Raise e ->
  is_Exception e = true ->
  analyze_click generate_content py_exec md_rows md_dtypes md_series w =
  (Ok tt,
   {| session := session w;
      logs := logs w ++ [(INFO, start_message); (ERROR, failure_log e)];
      screen := screen w ++ [StError (failure_banner e)];
      post_calls := post_calls w |}).
Proof.
  intros Hs Hg He. unfold model_name in Hg.
  unfold analyze_click, bind, try_except, get_df_original, logger, lift.
  cbn [session logs screen post_calls]. rewrite Hs. cbn zeta. rewrite Hg, He.
  cbn. rewrite <- app_assoc. reflexivity.
Qed.

(** X14: a blocked reply. When the service returns no text or an empty
    text, the step shows the warning and stops the run: [st.stop()] raises
    an exception the [except Exception] clause does not catch, so no
    failure is logged or shown, the interpreter plays no part, and the
    session stays as it was. *)
Theorem analyze_click_blocked (w : world) (df : DataFrame) (reply : option str) :
  ss_df_original (session w) = Some df ->
  generate_content model_name
    (generate_llm_prompt md_rows md_dtypes md_series df) = Ok reply ->
  reply = None \/ reply = Some [] ->
  analyze_click generate_content py_exec md_rows md_dtypes md_series w =
  (Raise StopException,
   {| session := session w;
      logs := logs w ++ [(INFO, start_message)];
      screen := screen w ++ [StError blocked_banner];
      post_calls := post_calls w |}).
Proof.
  intros Hs Hg Hr. unfold model_name in Hg.
  unfold analyze_click, bind, try_except, get_df_original, logger, lift.
  cbn [session logs screen post_calls]. rewrite Hs. cbn zeta. rewrite Hg.
  destruct Hr as [->| ->]; reflexivity.
Qed.

(** X15: what the step never does, on any path and for any services. It
    makes no call to [requests.post]: the webhook is not its business. Of
    the text generation service it uses one answer only, the one to the
    model name and the prompt built from the stored original table: two
    services that agree on that request give the same step. It never
    changes the original table, and it leaves the session either
    untouched or with the cleaned table, the report and the snippet all
    written, so a consistent session stays consistent. *)
Theorem analyze_click_invariants (w : world) :
  let out := analyze_click generate_content py_exec md_rows md_dtypes md_series w in
  post_calls (snd out) = post_calls w /\
  (forall other_service : str -> str -> result (option str),
     (forall df, ss_df_original (session w) = Some df ->
        other_service (pystr "gemini-2.0-flash")
          (generate_llm_prompt md_rows md_dtypes md_series df)
        = generate_content (pystr "gemini-2.0-flash")
            (generate_llm_prompt md_rows md_dtypes md_series df)) ->
     analyze_click other_service py_exec md_rows md_dtypes md_series w = out) /\
  ss_df_original (session (snd out)) = ss_df_original (session w) /\
  (session (snd out) = session w \/
   exists df df' report code, session (snd out) = analyzed df df' report code) /\
  (consistent (session w) -> consistent (session (snd out))).
Proof.
  cbn zeta.
  split; [|split].
  1:{ destruct (analyze_click_effect w) as (r & w' & E & Hcalls & _).
      rewrite E. exact Hcalls. }
  1:{ intros other_service Hagree.
      unfold analyze_click, bind, try_except, get_df_original, logger, lift.
      cbn [session logs screen post_calls].
      destruct (ss_df_original (session w)) as [df|] eqn:Hs; [|reflexivity].
      cbn zeta. rewrite (Hagree df eq_refl). reflexivity. }
  destruct (analyze_click_effect w) as (r & w' & E & Hcalls & Hsess & _).
  rewrite E. cbn [snd].
  split; [|split].
  - destruct Hsess as [->|(_ & df & df' & rep & code & Hs & ->)];
      [reflexivity | now rewrite Hs].
  - destruct Hsess as [->|(_ & df & df' & rep & code & Hs & ->)];
      [now left | right; now eexists _, _, _, _].
  - intros Hc.
    destruct Hsess as [->|(_ & df & df' & rep & code & Hs & ->)];
      [exact Hc|].
    intros _. split; discriminate.
Qed.

End AnalysisPaths.

Lemma analyze_click_success_witness :
  exists report,
    extract_report fillna_reply = Ok report /\
    analyze_click (fun _ _ => Ok (Some fillna_reply)) scenario_interpreter
      no_markdown_rows no_markdown_rows no_markdown_series (uploaded people) =
    (Ok tt,
     {| session := analyzed people
                     (scenario_table 1 2 3 (pystr "Ann") (pystr "Bob") (pystr "Cy")
                        [VFloat 30; VFloat 35.5; VFloat 41])
                     report (extract_code fillna_reply);
        logs := [] ++ [(INFO, start_message); (INFO, pystr "Pipeline successful.")];
        screen := [];
        post_calls := [] |}).
Proof.
  apply (analyze_click_success (fun _ _ => Ok (Some fillna_reply))
           scenario_interpreter no_markdown_rows no_markdown_rows
           no_markdown_series (uploaded people) people).
  - reflexivity.
  - reflexivity.
  - discriminate.
  - reflexivity.
Defined.

Lemma analyze_click_service_error_witness :
  fst (analyze_click (fun _ _ => Raise (Exception_ (pystr "429 quota exceeded")))
         scenario_interpreter no_markdown_rows no_markdown_rows
         no_markdown_series (uploaded people))
  = Ok tt.
Proof.
  rewrite (analyze_click_service_error
             (fun _ _ => Raise (Exception_ (pystr "429 quota exceeded")))
             scenario_interpreter no_markdown_rows no_markdown_rows
             no_markdown_series (uploaded people) people
             (Exception_ (pystr "429 quota exceeded")) eq_refl eq_refl eq_refl).
  reflexivity.
Defined.

Lemma analyze_click_blocked_witness :
  fst (analyze_click (fun _ _ => Ok None) scenario_interpreter no_markdown_rows
         no_markdown_rows no_markdown_series (uploaded people))
  = Raise StopException.
Proof.
  rewrite (analyze_click_blocked (fun _ _ => Ok None) scenario_interpreter
             no_markdown_rows no_markdown_rows no_markdown_series
             (uploaded people) people None eq_refl eq_refl (or_introl eq_refl)).
  reflexivity.
Defined.

(** ** The page script *)

Section ScriptFacts.

Variable generate_content : str -> str -> result (option str).
Variable py_exec : str -> DataFrame -> result DataFrame.
Variable post : request -> result Z.
Variable localtime : struct_time.
Variable md_rows : DataFrame -> str.
Variable md_dtypes : DataFrame -> str.
Variable md_series : str -> list (str * float) -> str.
Variable to_csv : DataFrame -> str.

Lemma load_upload_effect (read_csv : result DataFrame) (w : world) :
  exists r w',
    load_upload read_csv w = (r, w') /\
    post_calls w' = post_calls w /\
    ss_df_clean (session w') = ss_df_clean (session w) /\
    ss_report_text (session w') = ss_report_text (session w) /\
    ss_cleaning_code (session w') = ss_cleaning_code (session w) /\
    (forall df, ss_df_original (session w) = Some df ->
                r = Ok tt /\ w' = w) /\
    (r = Ok tt -> ss_df_original (session w') <> None) /\
    (forall df, ss_df_original (session w) = None -> read_csv = Ok df ->
                r = Ok tt /\ ss_df_original (session w') = Some df) /\
    (forall e, r = Raise e -> read_csv = Raise e /\ w' = w).
Proof.
  unfold load_upload, bind, lift, set_df_original.
  destruct (ss_df_original (session w)) as [df0|] eqn:Hs.
  - exists (Ok tt), w. rewrite Hs. repeat split; congruence.
  - destruct read_csv as [df|e]; eexists _, _; (split; [reflexivity|]);
      cbn; repeat split; try congruence.
Qed.

Lemma results_display_run (w : world) :
  results_display to_csv w =
  match ss_report_text (session w) with
  | None => (Raise (KeyError (pystr "report_text")), w)
  | Some report_text =>
      match ss_cleaning_code (session w) with
      | None => (Raise (KeyError (pystr "cleaning_code")), w)
      | Some cleaning_code =>
          match ss_df_clean (session w) with
          | None => (Raise (KeyError (pystr "df_clean")), w)
          | Some df_clean =>
              (Ok (results_widgets to_csv report_text cleaning_code df_clean), w)
          end
      end
  end.
Proof.
  unfold results_display, bind, get_report_text, get_cleaning_code, get_df_clean.
  destruct (ss_report_text (session w)); [|reflexivity].
  destruct (ss_cleaning_code (session w)); [|reflexivity].
  destruct (ss_df_clean (session w)) eqn:E; [|reflexivity].
  cbn. rewrite E. reflexivity.
Qed.

Lemma trigger_click_run (webhook_url : str) (w : world) :
  trigger_click post localtime webhook_url w =
  match webhook_url with
  | [] => (Ok (Warning warning_message), w)
  | _ :: _ =>
      match ss_df_clean (session w) with
      | None => (Raise (KeyError (pystr "df_clean")), w)
      | Some df_clean =>
          match send_to_webhook post localtime df_clean webhook_url w with
          | (Ok true, w') => (Ok (Success success_message), w')
          | (Ok false, w') => (Ok (Error failure_message), w')
          | (Raise e, w') => (Raise e, w')
          end
      end
  end.
Proof.
  unfold trigger_click, bind, get_df_clean.
  destruct webhook_url as [|c url]; [reflexivity|].
  destruct (ss_df_clean (session w)); [|reflexivity].
  destruct (send_to_webhook _ _ _ _ _) as [[[|]|e] w']; reflexivity.
Qed.

(** One run, step by step. *)
Lemma script_run_unfold (inp : inputs) (w : world) :
  script_run generate_content py_exec post localtime md_rows md_dtypes
    md_series to_csv inp w =
  match uploaded_file inp with
  | None => (Ok ([], None), w)
  | Some read_csv =>
      match load_upload read_csv w with
      | (Raise e, w1) => (Raise e, w1)
      | (Ok _, w1) =>
          match ss_df_original (session w1) with
          | None => (Raise (KeyError (pystr "df_original")), w1)
          | Some df_original =>
              match (if analyze_button inp
                     then analyze_click generate_content py_exec md_rows
                            md_dtypes md_series w1
                     else (Ok tt, w1)) with
              | (Raise e, w2) => (Raise e, w2)
              | (Ok _, w2) =>
                  match ss_df_clean (session w2) with
                  | None => (Ok (sample_widgets df_original, None), w2)
                  | Some _ =>
                      match results_display to_csv w2 with
                      | (Raise e, w3) => (Raise e, w3)
                      | (Ok results, w3) =>
                          if trigger_button inp then
                            match trigger_click post localtime
                                    (webhook_url_input inp) w3 with
                            | (Raise e, w4) => (Raise e, w4)
                            | (Ok b, w4) =>
                                (Ok (sample_widgets df_original ++ results,
                                     Some b), w4)
                            end
                          else (Ok (sample_widgets df_original ++ results, None), w3)
                      end
                  end
              end
          end
      end
  end.
Proof.
  unfold script_run. destruct (uploaded_file inp) as [read_csv|]; [|reflexivity].
  unfold bind at 1. destruct (load_upload read_csv w) as [[[]|e] w1]; [|reflexivity].
  unfold bind at 1, get_df_original.
  destruct (ss_df_original (session w1)) as [df_original|]; [|reflexivity].
  unfold bind at 1.
  destruct (analyze_button inp).
  - destruct (analyze_click _ _ _ _ _ w1) as [[[]|e] w2]; [|reflexivity].
    unfold bind at 1, has_df_clean.
    destruct (ss_df_clean (session w2)); [|reflexivity].
    unfold bind at 1.
    destruct (results_display to_csv w2) as [[results|e] w3]; [|reflexivity].
    unfold bind at 1. destruct (trigger_button inp); [|reflexivity].
    unfold bind at 1.
    destruct (trigger_click _ _ _ w3) as [[b|e] w4]; reflexivity.
  - unfold ret at 1. unfold bind at 1, has_df_clean.
    destruct (ss_df_clean (session w1)); [|reflexivity].
    unfold bind at 1.
    destruct (results_display to_csv w1) as [[results|e] w3]; [|reflexivity].
    unfold bind at 1. destruct (trigger_button inp); [|reflexivity].
    unfold bind at 1.
    destruct (trigger_click _ _ _ w3) as [[b|e] w4]; reflexivity.
Qed.

(** The part of a run below the analysis button. *)
Definition display_stage (sample : list widget) (inp : inputs) (w2 : world)
  : result (list widget * option banner) * world :=
  match ss_df_clean (session w2) with
  | None => (Ok (sample, None), w2)
  | Some _ =>
      match results_display to_csv w2 with
      | (Raise e, w3) => (Raise e, w3)
      | (Ok results, w3) =>
          if trigger_button inp then
            match trigger_click post localtime (webhook_url_input inp) w3 with
            | (Raise e, w4) => (Raise e, w4)
            | (Ok b, w4) => (Ok (sample ++ results, Some b), w4)
            end
          else (Ok (sample ++ results, None), w3)
      end
  end.

Lemma display_stage_effect (sample : list widget) (inp : inputs) (w2 : world) :
  exists r w',
    display_stage sample inp w2 = (r, w') /\
    session w' = session w2 /\
    (consistent (session w2) -> forall e, r = Raise e -> is_Exception e = false) /\
    (post_calls w' = post_calls w2 \/
     trigger_button inp = true /\ webhook_url_input inp <> [] /\
     exists df_clean,
       ss_df_clean (session w2) = Some df_clean /\
       post_calls w' = post_calls w2 ++
                 [webhook_request localtime df_clean (webhook_url_input inp)]).
Proof.
  unfold display_stage.
  destruct (ss_df_clean (session w2)) as [dfc|] eqn:Hc.
  2:{ exists (Ok (sample, None)), w2. repeat split; auto. intros _ e H. discriminate H. }
  rewrite results_display_run, Hc.
  destruct (ss_report_text (session w2)) as [rep|] eqn:Hr.
  2:{ eexists _, _. split; [reflexivity|]. split; [reflexivity|]. split; [|now left].
      intros Hcons. exfalso.
      assert (Hd : ss_df_clean (session w2) <> None) by congruence.
      destruct (Hcons Hd) as [H1 H2]. congruence. }
  destruct (ss_cleaning_code (session w2)) as [code|] eqn:Hk.
  2:{ eexists _, _. split; [reflexivity|]. split; [reflexivity|]. split; [|now left].
      intros Hcons. exfalso.
      assert (Hd : ss_df_clean (session w2) <> None) by congruence.
      destruct (Hcons Hd) as [H1 H2]. congruence. }
  destruct (trigger_button inp).
  2:{ eexists _, _. split; [reflexivity|]. split; [reflexivity|]. split; [|now left].
      intros _ e H. discriminate H. }
  rewrite trigger_click_run.
  destruct (webhook_url_input inp) as [|c url] eqn:Hu.
  { eexists _, _. split; [reflexivity|]. split; [reflexivity|]. split; [|now left].
    intros _ e H. discriminate H. }
  rewrite Hc, send_to_webhook_run. cbn zeta.
  destruct (post _) as [status|e].
  - destruct (status =? 200)%Z; eexists _, _; (split; [reflexivity|]);
      (split; [reflexivity|]); (split; [intros _ e H; discriminate H|]);
      right; (split; [reflexivity|]); (split; [discriminate|]);
      exists dfc; split; reflexivity.
  - destruct (is_Exception e) eqn:E; eexists _, _; (split; [reflexivity|]);
      (split; [reflexivity|]).
    + split; [intros _ e0 H; discriminate H|].
      right. split; [reflexivity|]. split; [discriminate|].
      exists dfc. split; reflexivity.
    + split; [intros _ e0 [= <-]; exact E|].
      right. split; [reflexivity|]. split; [discriminate|].
      exists dfc. split; reflexivity.
Qed.

(** Every path of a run at once. *)
Lemma script_run_effect (inp : inputs) (w : world) :
  exists r w',
    script_run generate_content py_exec post localtime md_rows md_dtypes
      md_series to_csv inp w = (r, w') /\
    (forall df, ss_df_original (session w) = Some df ->
                ss_df_original (session w') = Some df) /\
    (forall df, ss_df_original (session w) = None ->
                uploaded_file inp = Some (Ok df) ->
                ss_df_original (session w') = Some df) /\
    (consistent (session w) ->
     consistent (session w') /\
     forall e, r = Raise e ->
               uploaded_file inp = Some (Raise e) \/ is_Exception e = false) /\
    (post_calls w' = post_calls w \/
     trigger_button inp = true /\ webhook_url_input inp <> [] /\
     exists df_clean,
       ss_df_clean (session w') = Some df_clean /\
       post_calls w' = post_calls w ++
                 [webhook_request localtime df_clean (webhook_url_input inp)]).
Proof.
  rewrite script_run_unfold.
  destruct (uploaded_file inp) as [rc|] eqn:Hup.
  2:{ exists (Ok ([], None)), w. split; [reflexivity|].
      split; [auto|]. split; [intros df _ H; discriminate H|].
      split; [|now left]. intros Hc. split; [exact Hc|].
      intros e H. discriminate H. }
  destruct (load_upload_effect rc w)
    as (r1 & w1 & E1 & S1 & C1 & R1 & K1 & O1 & N1 & Q1 & X1).
  rewrite E1. destruct r1 as [[]|e1].
  2:{ destruct (X1 e1 eq_refl) as [-> ->]. exists (Raise e1), w.
      split; [reflexivity|]. split; [auto|].
      split; [intros df _ H; discriminate H|].
      split; [|now left]. intros Hc. split; [exact Hc|].
      intros e [= <-]. now left. }
  destruct (ss_df_original (session w1)) as [df0|] eqn:H0.
  2:{ exfalso. now apply (N1 eq_refl). }
  assert (A1 : forall df, ss_df_original (session w) = Some df ->
                          ss_df_original (session w1) = Some df).
  { intros df Hs. destruct (O1 df Hs) as [_ Hw]. congruence. }
  assert (B1 : forall df, ss_df_original (session w) = None -> rc = Ok df ->
                          ss_df_original (session w1) = Some df).
  { intros df Hn Hrc. destruct (Q1 df Hn Hrc) as [_ H]. congruence. }
  assert (Cons1 : consistent (session w) -> consistent (session w1)).
  { unfold consistent. now rewrite C1, R1, K1. }
  assert (T : exists r2 w2,
             (if analyze_button inp
              then analyze_click generate_content py_exec md_rows md_dtypes
                     md_series w1
              else (Ok tt, w1)) = (r2, w2) /\
             post_calls w2 = post_calls w1 /\
             ss_df_original (session w2) = ss_df_original (session w1) /\
             (consistent (session w1) -> consistent (session w2)) /\
             (forall e, r2 = Raise e -> is_Exception e = false)).
  { destruct (analyze_button inp).
    - destruct (analyze_click_effect generate_content py_exec md_rows md_dtypes
                  md_series w1) as (r2 & w2 & E2 & S2 & Hsess & Hexc).
      exists r2, w2. split; [exact E2|]. split; [exact S2|].
      split; [|split].
      + destruct Hsess as [->|(_ & df & df' & rep & code & Hs & ->)];
          [reflexivity | now rewrite Hs].
      + intros Hc.
        destruct Hsess as [->|(_ & df & df' & rep & code & Hs & ->)];
          [exact Hc|]. intros _. split; discriminate.
      + intros e He. destruct (Hexc e He) as [Hf|Hn]; [exact Hf|].
        rewrite H0 in Hn. discriminate Hn.
    - exists (Ok tt), w1. split; [reflexivity|]. split; [reflexivity|].
      split; [reflexivity|]. split; [auto|]. intros e Hx. discriminate Hx. }
  destruct T as (r2 & w2 & E2 & S2 & O2 & Cons2 & X2). rewrite E2.
  destruct r2 as [[]|e2].
  2:{ exists (Raise e2), w2. split; [reflexivity|].
      split; [intros df Hs; rewrite O2; now apply A1|].
      split; [intros df Hn [= Hrc]; rewrite O2; now apply B1|].
      split; [|left; congruence]. intros Hc. split; [auto|].
      intros e [= <-]. right. now apply X2. }
  destruct (display_stage_effect (sample_widgets df0) inp w2)
    as (r3 & w3 & E3 & Hs3 & X3 & D3).
  unfold display_stage in E3. rewrite E3.
  exists r3, w3. split; [reflexivity|]. rewrite Hs3.
  split; [intros df Hs; rewrite O2; now apply A1|].
  split; [intros df Hn [= Hrc]; rewrite O2; now apply B1|].
  split.
  - intros Hc. split; [auto|]. intros e He. right. apply (X3 (Cons2 (Cons1 Hc)) e He).
  - rewrite <- S1, <- S2. exact D3.
Qed.

(** X16: the first upload wins. A run that finds an original table in the
    session keeps it, whatever file is uploaded and whatever else the run
    does; a run that finds none stores the table parsed from the uploaded
    file. *)
Theorem script_run_original (inp : inputs) (w : world) :
  let out := script_run generate_content py_exec post localtime md_rows
               md_dtypes md_series to_csv inp w in
  (forall df, ss_df_original (session w) = Some df ->
              ss_df_original (session (snd out)) = Some df) /\
  (forall df, ss_df_original (session w) = None ->
              uploaded_file inp = Some (Ok df) ->
              ss_df_original (session (snd out)) = Some df).
Proof.
  cbn zeta. destruct (script_run_effect inp w) as (r & w' & E & A & B & _).
  rewrite E. split; assumption.
Qed.

(** X17: a run never fails on a key of its own. In a session where the
    report and the snippet are set whenever the cleaned table is, as in the
    empty session, a run leaves the session so; and an exception that ends
    the run is the one [pd.read_csv] raised or lies outside the
    [Exception] hierarchy ([st.stop()], an interrupt): never a [KeyError]
    on the session. *)
Theorem script_run_consistent (inp : inputs) (w : world) :
  consistent (session blank_world) /\
  (consistent (session w) ->
   let out := script_run generate_content py_exec post localtime md_rows
                md_dtypes md_series to_csv inp w in
   consistent (session (snd out)) /\
   forall e, fst out = Raise e ->
             uploaded_file inp = Some (Raise e) \/ is_Exception e = false).
Proof.
  split.
  - intros H. now contradiction H.
  - cbn zeta. intros Hc.
    destruct (script_run_effect inp w) as (r & w' & E & _ & _ & C & _).
    rewrite E. exact (C Hc).
Qed.


(** X19: the webhook button. With a cleaned table stored: an empty URL
    gives the warning and changes nothing; a non-empty URL gives the
    success message exactly when the endpoint answers 200, and the failure
    message for any other status or for an exception [send_to_webhook]
    handles. *)
Theorem trigger_click_outcome (webhook_url : str) (w : world)
    (df_clean : DataFrame) :
  ss_df_clean (session w) = Some df_clean ->
  let r := webhook_request localtime df_clean webhook_url in
  let out := trigger_click post localtime webhook_url w in
  (webhook_url = [] -> out = (Ok (Warning warning_message), w)) /\
  (webhook_url <> [] ->
   forall status_code, post r = Ok status_code ->
     fst out = Ok (if (status_code =? 200)%Z
                   then Success success_message
                   else Error failure_message)) /\
  (webhook_url <> [] ->
   forall e, post r = Raise e -> is_Exception e = true ->
     fst out = Ok (Error failure_message)).
Proof.
  intros Hc. cbn zeta. rewrite trigger_click_run.
  split; [|split].
  - intros ->. reflexivity.
  - intros Hu status Hp. destruct webhook_url as [|c url]; [congruence|].
    rewrite Hc, send_to_webhook_run. cbn zeta. rewrite Hp.
    now destruct (status =? 200)%Z.
  - intros Hu e Hp He. destruct webhook_url as [|c url]; [congruence|].
    rewrite Hc, send_to_webhook_run. cbn zeta. rewrite Hp, He. reflexivity.
Qed.


End ScriptFacts.

Lemma trigger_click_outcome_witness :
  fst (trigger_click (fun _ => Ok 200%Z) noon hook_url
         (with_session (analyzed people_sample people_sample [] []) blank_world))
  = Ok (Success success_message).
Proof.
  pose proof (trigger_click_outcome (fun _ => Ok 200%Z) noon hook_url
                (with_session (analyzed people_sample people_sample [] [])
                   blank_world)
                people_sample eq_refl) as H.
  cbn zeta in H. destruct H as (_ & H & _).
  refine (H _ 200%Z eq_refl). discriminate.
Defined.

Lemma script_run_consistent_witness :
  consistent
    (session (snd (script_run (fun _ _ => Ok (Some fillna_reply))
                     scenario_interpreter (fun _ => Ok 200%Z) noon
                     no_markdown_rows no_markdown_rows no_markdown_series
                     no_markdown_rows
                     {| uploaded_file := Some (Ok people); analyze_button := true;
                        webhook_url_input := hook_url; trigger_button := true |}
                     blank_world))).
Proof.
  refine (proj1 (proj2 (script_run_consistent _ _ _ _ _ _ _ _ _ blank_world) _)).
  intros H. now contradiction H.
Defined.

Lemma script_run_original_witness :
  ss_df_original
    (session (snd (script_run (fun _ _ => Ok None) scenario_interpreter
                     (fun _ => Ok 200%Z) noon no_markdown_rows no_markdown_rows
                     no_markdown_series no_markdown_rows
                     {| uploaded_file := Some (Ok people_sample);
                        analyze_button := false;
                        webhook_url_input := []; trigger_button := false |}
                     (uploaded people))))
  = Some people.
Proof.
  refine (proj1 (script_run_original _ _ _ _ _ _ _ _ _ (uploaded people)) people _).
  reflexivity.
Defined.


(** ** More on [find], row records and the start of the script *)

(** X22: [find] is Python's [str.find]: it returns [None] exactly when the
    text holds no occurrence, and [Some i] exactly when an occurrence
    starts at [i] and none starts before; [in] holds exactly when there is
    an occurrence. *)
Theorem find_spec (sub s : str) :
  (find sub s = None <-> ~ occurs sub s) /\
  (forall i, find sub s = Some i <->
     startswith sub (skipn i s) = true /\ i <= length s /\
     forall k, k < i -> startswith sub (skipn k s) = false) /\
  (contains sub s = true <-> occurs sub s).
Proof.
  split; [apply find_None_occurs|]. split; [|apply contains_occurs].
  intros i. split.
  - intros H. split; [now apply find_Some_startswith|]. split.
    + apply find_bound in H. lia.
    + intros k Hk. now apply (find_Some_minimal sub s i k).
  - intros (Hs & Hi & Hmin).
    destruct (find sub s) as [j|] eqn:F.
    + destruct (Nat.lt_trichotomy j i) as [L|[->|G]]; [|reflexivity|].
      * apply find_Some_startswith in F. rewrite (Hmin j L) in F. discriminate F.
      * pose proof (find_Some_minimal sub s j i F G) as C. congruence.
    + exfalso. apply find_None_occurs in F. apply F.
      apply startswith_split in Hs.
      exists (firstn i s), (skipn (length sub) (skipn i s)).
      rewrite <- Hs. now rewrite firstn_skipn.
Qed.

Lemma str_eqb_refl (k : str) : str_eqb k k = true.
Proof. now apply str_eqb_eq. Qed.

Lemma dict_get_set_same {V} (k : str) (v : V) (d : dict V) :
  dict_get k (dict_set k v d) = Some v.
Proof.
  induction d as [|[k' v'] d IH]; simpl.
  - now rewrite str_eqb_refl.
  - destruct (str_eqb k k') eqn:E; simpl.
    + now rewrite str_eqb_refl.
    + now rewrite E.
Qed.

Lemma dict_get_set_other {V} (k k0 : str) (v : V) (d : dict V) :
  str_eqb k k0 = false -> dict_get k (dict_set k0 v d) = dict_get k d.
Proof.
  intros Hne. induction d as [|[k' v'] d IH]; simpl.
  - now rewrite Hne.
  - destruct (str_eqb k0 k') eqn:E; simpl.
    + apply str_eqb_eq in E. subst k'. now rewrite Hne.
    + now rewrite IH.
Qed.

(** X23: columns with the same name. In the record of a row, every column
    name has one entry, and its value is the cell of the last column with
    that name; a name that is no column has none. *)
Theorem row_record_lookup (df : DataFrame) (i : nat) (k : str) :
  dict_get k (row_record df i)
  = option_map (fun col => nth i col VNone) (last_column k (columns df)).
Proof.
  unfold row_record, last_column.
  enough (G : forall cols (acc : dict cell) (found : option (list cell)),
             dict_get k acc = option_map (fun col => nth i col VNone) found ->
             dict_get k (fold_left
                           (fun d col => dict_set (fst col) (nth i (snd col) VNone) d)
                           cols acc)
             = option_map (fun col => nth i col VNone)
                 (fold_left (fun a col => if str_eqb k (fst col)
                                          then Some (snd col) else a)
                            cols found)).
  { now apply G. }
  induction cols as [|col cols IH]; intros acc found H; simpl; [exact H|].
  apply IH. destruct (str_eqb k (fst col)) eqn:E.
  - apply str_eqb_eq in E. subst k. apply dict_get_set_same.
  - now rewrite dict_get_set_other.
Qed.

(** X24: a table of at most 100 rows is post_calls whole, a longer one as
    exactly 100 records. *)
Theorem webhook_payload_rows (localtime : struct_time) (dataframe : DataFrame) :
  exists data,
    dict_get (pystr "data") (webhook_payload localtime dataframe)
    = Some (PRecords data) /\
    (nrows dataframe <= 100 -> data = to_dict_records dataframe) /\
    (100 <= nrows dataframe -> length data = 100).
Proof.
  exists (to_dict_records (head 100 dataframe)). split; [reflexivity|]. split.
  - intros H. rewrite to_dict_records_head. apply firstn_all2.
    now rewrite to_dict_records_length.
  - intros H. rewrite to_dict_records_length.
    change (nrows (head 100 dataframe)) with (Nat.min 100 (nrows dataframe)).
    now apply Nat.min_l.
Qed.

Lemma webhook_payload_rows_witness :
  exists data,
    dict_get (pystr "data") (webhook_payload noon people_sample)
    = Some (PRecords data) /\
    data = to_dict_records people_sample.
Proof.
  destruct (webhook_payload_rows noon people_sample) as (data & H1 & H2 & _).
  exists data. split; [exact H1|]. apply H2. cbn. lia.
Defined.

Section StartupFacts.

Variable client : Type.
Variable make_client : str -> result client.

(** X25: the start of the script. When [st.secrets.get] returns, the
    script goes on with a client exactly when the secrets or, failing a
    non-empty secret, the environment give a non-empty key and the client
    is made from that key; without a key, or when making the client raises
    an exception of the [Exception] hierarchy, it shows an error and stops
    the run. When [st.secrets.get] raises (line 23 stands outside any
    [try]), the exception ends the run, with nothing shown or logged,
    even if the environment holds a key. *)
Theorem startup_outcome (secret : result (option str)) (env : option str)
    (w : world) :
  let out := startup client make_client secret env w in
  (forall c, fst out = Ok c <->
     exists from_secrets key,
       secret = Ok from_secrets /\ key <> [] /\ make_client key = Ok c /\
       (from_secrets = Some key \/
        (from_secrets = None \/ from_secrets = Some []) /\ env = Some key)) /\
  (forall e, secret = Raise e -> out = (Raise e, w)) /\
  (forall from_secrets, secret = Ok from_secrets ->
     or_else from_secrets env = None \/ or_else from_secrets env = Some [] ->
     out = (Raise StopException,
            {| session := session w; logs := logs w;
               screen := screen w ++ [StError no_key_message];
               post_calls := post_calls w |})) /\
  (forall from_secrets key e,
     secret = Ok from_secrets -> or_else from_secrets env = Some key ->
     key <> [] -> make_client key = Raise e -> is_Exception e = true ->
     out = (Raise StopException,
            {| session := session w;
               logs := logs w ++ [(ERROR, pystr "Initialization Failure: "
                                            ++ exn_str e)];
               screen := screen w ++
                         [StError ([10060; 32]%N
                                     ++ pystr "Failed to initialize Gemini Client: "
                                     ++ exn_str e)];
               post_calls := post_calls w |})).
Proof.
  cbn zeta. unfold startup, bind, lift, try_except, st_stop, raise, st_error,
    logger, ret.
  split; [|split; [|split]].
  - intros c. split.
    + destruct secret as [[[|a k]|]|e0]; cbn [or_else].
      * destruct env as [[|a k]|]; cbn; try discriminate.
        destruct (make_client (a :: k)) as [c'|e] eqn:M; cbn.
        -- intros [= <-]. exists (Some []), (a :: k).
           split; [reflexivity|]. split; [discriminate|].
           split; [exact M|]. right. split; [now right | reflexivity].
        -- destruct (is_Exception e); discriminate.
      * destruct (make_client (a :: k)) as [c'|e] eqn:M; cbn.
        -- intros [= <-]. exists (Some (a :: k)), (a :: k).
           split; [reflexivity|]. split; [discriminate|].
           split; [exact M|]. now left.
        -- destruct (is_Exception e); discriminate.
      * destruct env as [[|a k]|]; cbn; try discriminate.
        destruct (make_client (a :: k)) as [c'|e] eqn:M; cbn.
        -- intros [= <-]. exists None, (a :: k).
           split; [reflexivity|]. split; [discriminate|].
           split; [exact M|]. right. split; [now left | reflexivity].
        -- destruct (is_Exception e); discriminate.
      * discriminate.
    + intros (from_secrets & key & -> & Hne & Hm & Hk).
      destruct key as [|a k]; [congruence|].
      destruct Hk as [->|[[->| ->] ->]]; cbn; now rewrite Hm.
  - intros e ->. reflexivity.
  - intros from_secrets -> H. destruct (or_else from_secrets env) as [[|a k]|];
      destruct H as [H|H]; try discriminate; reflexivity.
  - intros from_secrets key e -> Hk Hne Hm He. rewrite Hk.
    destruct key as [|a k]; [congruence|]. cbn. rewrite Hm, He. cbn.
    reflexivity.
Qed.

End StartupFacts.

Lemma startup_outcome_witness :
  fst (startup nat (fun key => Ok (length key)) (Ok (Some [])) (Some (pystr "k-123"))
         blank_world) = Ok 5 /\
  startup nat (fun key => Ok (length key)) (Raise (Exception_ (pystr "No secrets found.")))
    (Some (pystr "k-123")) blank_world
  = (Raise (Exception_ (pystr "No secrets found.")), blank_world).
Proof.
  pose proof (startup_outcome nat (fun key => Ok (length key)) (Ok (Some []))
                (Some (pystr "k-123")) blank_world) as H1.
  pose proof (startup_outcome nat (fun key => Ok (length key))
                (Raise (Exception_ (pystr "No secrets found.")))
                (Some (pystr "k-123")) blank_world) as H2.
  cbn zeta in H1, H2. split.
  - apply (proj1 H1 5).
    exists (Some []), (pystr "k-123"). split; [reflexivity|].
    split; [discriminate|]. split; [reflexivity|].
    right. split; [now right | reflexivity].
  - exact (proj1 (proj2 H2) _ eq_refl).
Defined.
